(** * Fastly power tools: the dispatcher of [main.py] and the logger of [logger.py]

    A shallow embedding of the two Python modules and the properties of
    their behaviour.

    Representation choices, used throughout:
    - a Python [str] is a Rocq [string] holding the UTF-8 bytes of its code
      points (a lone surrogate as its three-byte generalised form).  The
      operations the code applies to text ([split] on an ASCII separator,
      [in], [==], concatenation) act the same on code points and on these
      bytes, since an ASCII byte never occurs inside a multi-byte sequence;
    - files are opened in text mode under a UTF-8 locale with POSIX line
      ends: writing a [str] stores its bytes, and raises
      [UnicodeEncodeError] when the text is not strict UTF-8 (a lone
      surrogate).  [bytes.decode()] is the strict UTF-8 decoder;
    - the file system is a flat finite map from path to content, the
      files there are; beside it the world says which paths the operating
      system does not open for writing, and which it does not remove, and
      why (a directory, a directory that is missing, a right that is).
      The log, [log.txt] in the working directory, is always opened.  The
      names [os.listdir] found in a directory are given to the function
      that asks for them;
    - the wall clock is an oracle read once per [time] call;
    - the interpreter's call stack is passed explicitly: a function that
      inspects it receives the frames of its callers, outermost first, the
      last one being its immediate caller stopped at the call site. *)

From Stdlib Require Import String Ascii.
From stdpp Require Import gmap strings list pretty.
From Equations Require Import Equations.

Local Open Scope string_scope.

(** ** Python values and text *)

Module Py.

Definition LF : ascii := "010".
Definition CR : ascii := "013".
Definition DQUOTE : ascii := "034".
Definition BACKSLASH : ascii := "092".

(** A one-character [str]. *)
Definition chr (c : ascii) : string := String c "".

(** [str(n)] for a non-negative [int]. *)
Definition str_of_int (n : nat) : string := pretty n.

(** [s.split(sep)] for a one-character separator. *)
Fixpoint split (sep : ascii) (s : string) : list string :=
  match s with
  | "" => [""]
  | String c r =>
      if Ascii.eqb c sep then "" :: split sep r
      else match split sep r with
           | h :: t => String c h :: t
           | [] => [chr c]
           end
  end.

(** [l[-k]] for [k >= 1]; [None] stands for [IndexError]. *)
Definition neg_index {A} (l : list A) (k : nat) : option A :=
  rev l !! (k - 1).

(** [sub in s] on text. *)
Fixpoint contains (sub s : string) : bool :=
  String.prefix sub s
  || match s with
     | "" => false
     | String _ r => contains sub r
     end.

(** [c in s] for one character. *)
Fixpoint has_char (c : ascii) (s : string) : bool :=
  match s with
  | "" => false
  | String d r => Ascii.eqb d c || has_char c r
  end.

(** Iterating a [str] yields its characters. *)
Fixpoint chars (s : string) : list string :=
  match s with
  | "" => []
  | String c r => chr c :: chars r
  end.

(** *** Strict UTF-8 *)

Definition byte_in (lo hi : nat) (c : ascii) : bool :=
  ((lo <=? nat_of_ascii c) && (nat_of_ascii c <=? hi))%nat.

Definition is_cont (c : ascii) : bool := byte_in 128 191 c.

(** Allowed second byte after a three-byte lead: no overlong form after
    [E0], no surrogate after [ED]. *)
Definition second_of3 (c0 c1 : ascii) : bool :=
  if (nat_of_ascii c0 =? 224)%nat then byte_in 160 191 c1
  else if (nat_of_ascii c0 =? 237)%nat then byte_in 128 159 c1
  else is_cont c1.

(** Allowed second byte after a four-byte lead: no overlong form after
    [F0], nothing above U+10FFFF after [F4]. *)
Definition second_of4 (c0 c1 : ascii) : bool :=
  if (nat_of_ascii c0 =? 240)%nat then byte_in 144 191 c1
  else if (nat_of_ascii c0 =? 244)%nat then byte_in 128 143 c1
  else is_cont c1.

Fixpoint utf8_valid (s : string) : bool :=
  match s with
  | "" => true
  | String c0 r0 =>
      if byte_in 0 127 c0 then utf8_valid r0
      else if byte_in 194 223 c0 then
        match r0 with
        | String c1 r1 => is_cont c1 && utf8_valid r1
        | _ => false
        end
      else if byte_in 224 239 c0 then
        match r0 with
        | String c1 (String c2 r2) =>
            second_of3 c0 c1 && is_cont c2 && utf8_valid r2
        | _ => false
        end
      else if byte_in 240 244 c0 then
        match r0 with
        | String c1 (String c2 (String c3 r3)) =>
            second_of4 c0 c1 && is_cont c2 && is_cont c3 && utf8_valid r3
        | _ => false
        end
      else false
  end.

(** *** Exceptions and results *)

Inductive exn : Type :=
| FileNotFoundError (path : string)
| IsADirectoryError (path : string)
| PermissionError (path : string)
| OSError
| IndexError
| AttributeError
| UnboundLocalError
| ValueError
| UnicodeEncodeError
| UnicodeDecodeError
| ArgumentTypeError (msg : string)
| Exception (msg : string)
| ExceptionFrom (cause : exn)          (* [Exception(e)] *)
| OtherException (name msg : string)   (* any other subclass of [Exception] *)
| BaseExit (name : string).            (* [SystemExit], [KeyboardInterrupt] *)

(** What [except Exception] catches. *)
Definition is_Exception (e : exn) : bool :=
  match e with
  | BaseExit _ => false
  | _ => true
  end.

Definition is_OSError (e : exn) : bool :=
  match e with
  | OSError | FileNotFoundError _ | IsADirectoryError _ | PermissionError _ =>
      true
  | _ => false
  end.

Definition is_UnicodeEncodeError (e : exn) : bool :=
  match e with
  | UnicodeEncodeError => true
  | _ => false
  end.

Inductive result (A : Type) : Type :=
| Return (a : A)
| Raise (e : exn).
Arguments Return {A} a.
Arguments Raise {A} e.

Definition of_option {A} (o : option A) (e : exn) : result A :=
  match o with
  | Some a => Return a
  | None => Raise e
  end.

(** A computation over a state [S] that returns or raises; the effects made
    before a raise stay. *)
Definition M (S A : Type) : Type := S → result A * S.

Definition ret {S A} (a : A) : M S A := λ s, (Return a, s).
Definition raise {S A} (e : exn) : M S A := λ s, (Raise e, s).
Definition bind {S A B} (m : M S A) (k : A → M S B) : M S B :=
  λ s, match m s with
       | (Return a, s') => k a s'
       | (Raise e, s') => (Raise e, s')
       end.
Definition lift_result {S A} (r : result A) : M S A := λ s, (r, s).

(** [try: m  except <catches> as e: h e] *)
Definition try_except {S A} (m : M S A) (catches : exn → bool)
    (h : exn → M S A) : M S A :=
  λ s, match m s with
       | (Raise e, s') => if catches e then h e s' else (Raise e, s')
       | r => r
       end.

(** [s.endswith(suffix)] *)
Fixpoint endswith (suffix s : string) : bool :=
  String.eqb s suffix
  || match s with
     | "" => false
     | String _ r => endswith suffix r
     end.

(** [for x in l: body(x)] *)
Fixpoint for_each {S A} (body : A → M S unit) (l : list A) : M S unit :=
  match l with
  | [] => ret tt
  | x :: rest => bind (body x) (λ _, for_each body rest)
  end.

End Py.

Import Py.

Notation "'let*' x := m 'in' k" := (bind m (λ x, k))
  (at level 10, x name, m at level 100, k at level 200,
   format "'[v' 'let*'  x  :=  m  'in' '/' k ']'").
Notation "m ;;; k" := (bind m (λ _, k))
  (at level 100, k at level 200, right associativity,
   format "'[v' m  ;;; '/' k ']'").

(** ** The operating system seen by the scripts *)

Module Os.

(** [time.struct_time], with the zone name [%Z] prints. *)
Record struct_time : Type := {
  tm_year : nat;
  tm_mon : nat;
  tm_mday : nat;
  tm_hour : nat;
  tm_min : nat;
  tm_sec : nat;
  tm_zone : string
}.

(** Why the operating system does not open a path for writing, or does not
    remove it. *)
Inductive refusal : Type :=
| NoSuchDirectory   (* an empty name, or a directory of the path is missing *)
| IsADirectory      (* the path is a directory *)
| NotPermitted.     (* the process has no right to *)

(** The [OSError] the call raises then. *)
Definition refused (r : refusal) (path : string) : exn :=
  match r with
  | NoSuchDirectory => FileNotFoundError path
  | IsADirectory => IsADirectoryError path
  | NotPermitted => PermissionError path
  end.

Record world : Type := {
  fs : gmap string string;       (* path to content *)
  stdout : list string;          (* one entry per [print] *)
  clock : nat → struct_time;     (* the local time at each reading *)
  ticks : nat;                   (* readings of the clock made so far *)
  unwritable : gmap string refusal;   (* paths [open] does not write to *)
  unremovable : gmap string refusal   (* paths [os.remove] does not remove *)
}.

Definition set_fs (f : gmap string string → gmap string string) (w : world)
    : world :=
  {| fs := f (fs w); stdout := stdout w; clock := clock w; ticks := ticks w;
     unwritable := unwritable w; unremovable := unremovable w |}.

(** [time.localtime()] *)
Definition localtime : M world struct_time :=
  λ w, (Return (clock w (ticks w)),
        {| fs := fs w; stdout := stdout w; clock := clock w;
           ticks := S (ticks w); unwritable := unwritable w;
           unremovable := unremovable w |}).

Definition pad2 (n : nat) : string :=
  if (n <? 10)%nat then "0" +:+ str_of_int n else str_of_int n.

(** The conversion specifications of [strftime] the scripts use, in the C
    locale; any other is copied through. *)
Definition directive (c : ascii) (t : struct_time) : string :=
  match c with
  | "m"%char => pad2 (tm_mon t)
  | "d"%char => pad2 (tm_mday t)
  | "Y"%char => str_of_int (tm_year t)
  | "I"%char =>
      pad2 (if (tm_hour t mod 12 =? 0)%nat then 12 else tm_hour t mod 12)
  | "M"%char => pad2 (tm_min t)
  | "S"%char => pad2 (tm_sec t)
  | "p"%char => if (tm_hour t <? 12)%nat then "AM" else "PM"
  | "Z"%char => tm_zone t
  | _ => String "%" (chr c)
  end.

Fixpoint strftime_at (fmt : string) (t : struct_time) : string :=
  match fmt with
  | "" => ""
  | String c r =>
      if Ascii.eqb c "%" then
        match r with
        | String d r' => directive d t +:+ strftime_at r' t
        | "" => chr c
        end
      else String c (strftime_at r t)
  end.

(** [time.strftime(fmt)]: formats the current local time. *)
Definition strftime (fmt : string) : M world string :=
  let* t := localtime in
  ret (strftime_at fmt t).

(** [print(s)] *)
Definition print (s : string) : M world unit :=
  λ w, (Return tt,
        {| fs := fs w; stdout := stdout w ++ [s]; clock := clock w;
           ticks := ticks w; unwritable := unwritable w;
           unremovable := unremovable w |}).

(** What keeps [open(path, "a")] and [open(path, "w")] from opening [path],
    if anything.  The scripts keep their log, [log.txt], in the working
    directory, which they may write to: the log is always opened.  Any
    other path is refused when the world says so. *)
Definition open_error (w : world) (path : string) : option refusal :=
  if String.eqb path "log.txt" then None else unwritable w !! path.

(** [open(path, "a")]: the file exists afterwards, unless the path is
    refused. *)
Definition open_append (path : string) : M world unit :=
  λ w, match open_error w path with
       | Some r => (Raise (refused r path), w)
       | None =>
           (Return tt,
            match fs w !! path with
            | Some _ => w
            | None => set_fs (insert path "") w
            end)
       end.


(** [f.write(text)] on a text file opened for writing at its end. *)
Definition write (path text : string) : M world unit :=
  λ w, if utf8_valid text
       then (Return tt,
             set_fs (insert path (default "" (fs w !! path) +:+ text)) w)
       else (Raise UnicodeEncodeError, w).

(** [open(path, "rb")], giving the bytes the handle reads. *)
Definition open_rb (path : string) : M world string :=
  λ w, (of_option (fs w !! path) (FileNotFoundError path), w).

(** [bytes.decode()] *)
Definition decode (b : string) : result string :=
  if utf8_valid b then Return b else Raise UnicodeDecodeError.

(** *** A binary handle: its bytes and its position *)

(** [f.seek(off, os.SEEK_END)] and [f.seek(off, os.SEEK_CUR)]: the new
    position, or [OSError] when it would be negative. *)
Definition seek_from (base : nat) (off : Z) : result nat :=
  if (Z.of_nat base + off <? 0)%Z then Raise OSError
  else Return (Z.to_nat (Z.of_nat base + off)).

Definition seek_end (data : string) (off : Z) : result nat :=
  seek_from (String.length data) off.

Definition seek_cur (pos : nat) (off : Z) : result nat :=
  seek_from pos off.

(** [f.read(1)]: the byte at the position, which then advances; nothing at
    end of file. *)
Definition read1 (data : string) (pos : nat) : string * nat :=
  match String.get pos data with
  | Some c => (chr c, S pos)
  | None => ("", pos)
  end.

Fixpoint drop_bytes (n : nat) (s : string) : string :=
  match n, s with
  | S n', String _ r => drop_bytes n' r
  | _, _ => s
  end.

Fixpoint first_line (s : string) : string :=
  match s with
  | "" => ""
  | String c r => if Ascii.eqb c LF then chr c else String c (first_line r)
  end.

(** [f.readline()]: up to and including the next line feed, or to the end. *)
Definition readline (data : string) (pos : nat) : string :=
  first_line (drop_bytes pos data).

(** *** [csv.writer] with the default dialect *)

Definition CRLF : string := String CR (chr LF).

Definition needs_quotes (field : string) : bool :=
  has_char "," field || has_char DQUOTE field
  || has_char CR field || has_char LF field.

Fixpoint double_quotes (field : string) : string :=
  match field with
  | "" => ""
  | String c r =>
      if Ascii.eqb c DQUOTE then String c (String c (double_quotes r))
      else String c (double_quotes r)
  end.

Definition csv_field (field : string) : string :=
  if needs_quotes field
  then chr DQUOTE +:+ double_quotes field +:+ chr DQUOTE
  else field.

(** The text [writer.writerow(row)] hands to the file in one [write]: the
    fields joined by commas, a lone empty field quoted, then the line
    terminator. *)
Definition csv_record (row : list string) : string :=
  match row with
  | [""] => String DQUOTE (chr DQUOTE) +:+ CRLF
  | _ => String.concat "," (csv_field <$> row) +:+ CRLF
  end.

Definition writerow (path : string) (row : list string) : M world unit :=
  write path (csv_record row).

(** [os.remove(path)]: a path that is refused (a directory, a file of a
    directory the process may not write to) stays; a file goes; without a
    file there is nothing to remove. *)
Definition remove (path : string) : M world unit :=
  λ w, match unremovable w !! path with
       | Some r => (Raise (refused r path), w)
       | None =>
           match fs w !! path with
           | Some _ => (Return tt, set_fs (delete path) w)
           | None => (Raise (FileNotFoundError path), w)
           end
       end.

(** [os.path.join(a, b)] with the POSIX separator. *)
Definition path_join (a b : string) : string :=
  if String.prefix "/" b then b
  else if String.eqb a "" || endswith "/" a then a +:+ b
  else a +:+ "/" +:+ b.

End Os.

Import Os.

(** ** The call stack *)

(** An entry of [traceback.extract_stack()]: it unpacks as
    [filename, line_no, function_name, code]. *)
Record FrameSummary : Type := {
  frame_filename : string;
  frame_lineno : nat;
  frame_name : string;
  frame_line : string
}.

(** [traceback.extract_stack()] inside a function whose callers are
    [callers] and whose own frame is [own]: the own frame comes last. *)
Definition extract_stack (callers : list FrameSummary) (own : FrameSummary)
    : list FrameSummary :=
  callers ++ [own].

(** ** logger.py *)

Module Logger.

Definition LOGFILE : string := "log.txt".

Definition END_SCRIPT : string :=
  chr LF +:+ "-------------\  End of Script  /--------------"
  +:+ chr LF +:+ chr LF.

Definition START_SCRIPT : string :=
  "-------------/ Start of Script \--------------".

(** [inspect.currentframe().f_back.f_lineno]: the line the caller is at. *)
Definition line_number (callers : list FrameSummary) : result nat :=
  of_option (frame_lineno <$> neg_index callers 1) AttributeError.

Definition now_date : M world string := strftime "%m/%d/%Y".

Definition date_filename : M world string := strftime "%m.%d.%Y".

Definition now_time : M world string := strftime "%I:%M:%S %p %Z".

(** The lines every function of the module runs on the file name of a
    frame: [filename.split("/")[-1]], then [filename.split("\\")[-1]]. *)
Definition strip_directories (filename : string) : result string :=
  match neg_index (split "/" filename) 1 with
  | Some filename => of_option (neg_index (split BACKSLASH filename) 1) IndexError
  | None => Raise IndexError
  end.

(** The text of a log line for a non-empty [log_text]. *)
Definition log_format (date time filename : string) (line_no : nat)
    (log_text : string) : string :=
  "[" +:+ date +:+ " " +:+ time +:+ ", " +:+ filename +:+ ": "
  +:+ str_of_int line_no +:+ "] " +:+ log_text +:+ " ".

(** A value together with the equation that it is the one inspected. *)
Definition inspect {A} (a : A) : {b : A | a = b} := exist _ a eq_refl.

(** The loop of [last_line_of_file], entered with the handle at [pos]:
    [while f.read(1) != b"\n": f.seek(-2, os.SEEK_CUR)].  It ends with the
    handle just after a line feed, or raises the [OSError] of a seek before
    the start of the file. *)
Equations? seek_line_start (data : string) (pos : nat) : result nat
    by wf pos lt :=
  seek_line_start data pos with inspect (read1 data pos) := {
    | exist _ (b, pos1) Hread with inspect (String.eqb b (chr LF)) := {
      | exist _ true _ => Return pos1
      | exist _ false _ with inspect (seek_cur pos1 (-2)) := {
        | exist _ (Return pos2) Hseek => seek_line_start data pos2
        | exist _ (Raise e) _ => Raise e } } }.
Proof.
  unfold seek_cur, seek_from in Hseek. unfold read1 in Hread.
  destruct (Z.of_nat pos1 + -2 <? 0)%Z eqn:Hneg; [discriminate|].
  apply Z.ltb_ge in Hneg. injection Hseek as <-.
  destruct (String.get pos data); injection Hread as _ <-; lia.
Qed.

Definition last_line_of_file (filename : string) : M world string :=
  let* data := open_rb filename in
  let sought :=
    match seek_end data (-2) with
    | Return pos => seek_line_start data pos
    | Raise e => Raise e
    end in
  let* pos :=
    lift_result
      match sought with
      | Raise e => if is_OSError e then Return 0 else Raise e
      | r => r
      end in
  lift_result (decode (readline data pos)).

(** The row [writer.writerow("UnicodeEncodeError")] writes: a [str] is
    iterated, one field per character. *)
Definition placeholder_row : list string := chars "UnicodeEncodeError".

Section Logger.

(** The path under which [logger.py] was loaded: the file name of the
    frames of its functions. *)
Variable logger_py : string.

(** The frame of a function of this module stopped at [lineno]. *)
Definition frame_at (lineno : nat) (name code : string) : FrameSummary :=
  {| frame_filename := logger_py; frame_lineno := lineno;
     frame_name := name; frame_line := code |}.

(** [write_to_logfile]: the three tests on [log_text] in the order of the
    source; when none holds [log] is not bound at line 43. *)
Definition write_to_logfile (callers : list FrameSummary) (log_text : string)
    : M world unit :=
  open_append LOGFILE ;;;
  let stack :=
    extract_stack callers
      (frame_at 32 "write_to_logfile" "stack = traceback.extract_stack()") in
  let* caller := lift_result (of_option (neg_index stack 2) IndexError) in
  let* filename := lift_result (strip_directories (frame_filename caller)) in
  let line_no := frame_lineno caller in
  let* log :=
    if negb (String.eqb log_text "") then
      let* date := now_date in
      let* time := now_time in
      ret (log_format date time filename line_no log_text)
    else if String.eqb log_text START_SCRIPT then ret log_text
    else if String.eqb log_text "" then ret ""
    else raise UnboundLocalError in
  write LOGFILE (chr LF +:+ log) ;;;
  print log.

Definition error_format (filename : string) (line_num : nat) (error : string)
    : string :=
  "  Error [File: " +:+ filename +:+ " Line: " +:+ str_of_int line_num
  +:+ "] - " +:+ error.

Definition error_handler (callers : list FrameSummary) (error : string)
    (line_num : nat) : M world string :=
  let stack :=
    extract_stack callers
      (frame_at 49 "error_handler" "stack = traceback.extract_stack()") in
  let* caller := lift_result (of_option (neg_index stack 2) IndexError) in
  let* filename := lift_result (strip_directories (frame_filename caller)) in
  let e := error_format filename line_num error in
  write_to_logfile
    (callers ++ [frame_at 55 "error_handler" "write_to_logfile(e)"]) e ;;;
  ret e.

(** The notice of line 82. *)
Definition notice (filename : string) : string :=
  "Writing Data to: " +:+ chr DQUOTE +:+ filename +:+ chr DQUOTE.

(** Lines 82 to 85 of [write_to_file]: the notice goes to the log unless
    the last line of the log has it. *)
Definition announce (callers : list FrameSummary) (filename : string)
    : M world unit :=
  let log_text := notice filename in
  let* tail := last_line_of_file LOGFILE in
  if negb (contains log_text tail) then
    write_to_logfile
      (callers ++ [frame_at 85 "write_to_file" "write_to_logfile(log_text)"])
      log_text
  else ret tt.

(** [write_to_file]: lines 82 to 85, then the row, its fields already
    text, goes to the data file. *)
Definition write_to_file (callers : list FrameSummary) (filename : string)
    (entry : list string) : M world unit :=
  announce callers filename ;;;
  open_append filename ;;;
  try_except (writerow filename entry) is_UnicodeEncodeError
    (λ _, writerow filename placeholder_row).

Definition engage (callers : list FrameSummary) : M world unit :=
  let stack :=
    extract_stack callers
      (frame_at 60 "engage" "stack = traceback.extract_stack()") in
  let* caller := lift_result (of_option (neg_index stack 2) IndexError) in
  let* filename := lift_result (strip_directories (frame_filename caller)) in
  write_to_logfile
    (callers
     ++ [frame_at 64 "engage"
           ("write_to_logfile(f" +:+ chr DQUOTE
            +:+ "Starting Script: {filename}" +:+ chr DQUOTE +:+ ")")])
    ("Starting Script: " +:+ filename).

Definition end_of_line (callers : list FrameSummary) : M world unit :=
  let stack :=
    extract_stack callers
      (frame_at 68 "end_of_line" "stack = traceback.extract_stack()") in
  let* caller := lift_result (of_option (neg_index stack 2) IndexError) in
  let* filename := lift_result (strip_directories (frame_filename caller)) in
  write_to_logfile
    (callers
     ++ [frame_at 72 "end_of_line"
           ("write_to_logfile(f" +:+ chr DQUOTE
            +:+ "Ending Script: {filename}" +:+ chr DQUOTE +:+ ")")])
    ("Ending Script: " +:+ filename).


(** [remove_old_files]: [listing] is what [os.listdir(directory)]
    returned. *)
Definition remove_old_files (listing : list string)
    (file_extension directory : string) : M world unit :=
  let file_extension := "." +:+ file_extension in
  let file_list := List.filter (endswith file_extension) listing in
  for_each (λ file, remove (path_join directory file)) file_list.

End Logger.
End Logger.

Import Logger.

(** ** main.py *)

Module Main.

(** The values an argument of the command line parses to. *)
Inductive value : Type :=
| VStr (s : string)
| VDict (d : gmap string string)
| VList (l : list string).

(** What [parse_arguments] returns: one attribute per declared option, an
    optional one left out on the command line being [None]. *)
Record Namespace : Type := {
  operation : string;
  api_key : string;
  service_name : string;
  dictionary_name : option string;
  acl_name : option string;
  input_dictionary : option (gmap string string);
  dictionary_items : option (list string);
  ips : option (list string)
}.

(** [vars(args)]: attribute name to value, [None] included. *)
Definition vars (args : Namespace) : gmap string (option value) :=
  {[ "operation" := Some (VStr (operation args));
     "api_key" := Some (VStr (api_key args));
     "service_name" := Some (VStr (service_name args));
     "dictionary_name" := VStr <$> dictionary_name args;
     "acl_name" := VStr <$> acl_name args;
     "input_dictionary" := VDict <$> input_dictionary args;
     "dictionary_items" := VList <$> dictionary_items args;
     "ips" := VList <$> ips args ]}.

(** What a handler may return, as far as [not] looks at it. *)
Inductive returned : Type :=
| RNone
| RBool (b : bool)
| RInt (n : Z)
| RStr (s : string).

Definition truthy (r : returned) : bool :=
  match r with
  | RNone => false
  | RBool b => b
  | RInt n => negb (n =? 0)%Z
  | RStr s => negb (String.eqb s "")
  end.

(** A function of the [fastly] module: the parameter names
    [inspect.signature] reports, in order, and what a call with keyword
    arguments does. *)
Record handler : Type := {
  parameters : list string;
  call : gmap string value → M world returned
}.

(** The names [main.py] imports from [fastly]. *)
Record fastly_module : Type := {
  upload_fastly_dictionary_entries : handler;
  remove_fastly_dictionary_entries : handler;
  upload_fastly_acl_entries : handler;
  remove_all_acl_entries : handler;
  remove_acl_entries : handler;
  backup_fastly_dictionary : handler;
  backup_acl : handler;
  remove_old_fastly_dictionary_entries : handler;
  remove_all_dictionary_entries : handler
}.

(** One step of [dict(pairs)]: an element must have two items, a key and
    its value. *)
Definition add_pair (acc : result (gmap string string)) (pair : list string)
    : result (gmap string string) :=
  match acc, pair with
  | Return d, [k; v] => Return (<[k := v]> d)
  | Return _, _ => Raise ValueError
  | Raise e, _ => Raise e
  end.

(** [dict(pairs)] *)
Definition dict_of_pairs (pairs : list (list string))
    : result (gmap string string) :=
  foldl add_pair (Return ∅) pairs.

Definition parse_key_value_pairs (pairs_str : string)
    : result (gmap string string) :=
  match dict_of_pairs (split ":" <$> split "," pairs_str) with
  | Raise e =>
      if is_Exception e
      then Raise (ArgumentTypeError
                    ("Invalid key:value pair format: " +:+ pairs_str))
      else Raise e
  | r => r
  end.

(** The run of [main]: the operating system, and a probe that records each
    call of a handler with the keyword arguments it received. *)
Record process : Type := {
  os : world;
  probe : list (string * gmap string value)
}.

Definition in_os {A} (m : M world A) : M process A :=
  λ p, let (r, w) := m (os p) in (r, {| os := w; probe := probe p |}).

(** The call of line 59: the handler registered as [name] receives
    [operation_arguments] as its keyword arguments. *)
Definition invoke (name : string) (operation : handler)
    (operation_arguments : gmap string value) : M process returned :=
  λ p, let (r, w) := call operation operation_arguments (os p) in
       (r, {| os := w; probe := probe p ++ [(name, operation_arguments)] |}).

Section Main.

Variable fastly : fastly_module.

(** The paths under which [main.py] and [logger.py] were loaded. *)
Variable main_py logger_py : string.

(** The text [print] shows for [vars(args)]. *)
Variable repr_vars : Namespace → string.

Definition OPERATIONS : gmap string handler :=
  {[ "add_entries_to_dictionary" := upload_fastly_dictionary_entries fastly;
     "remove_entries_from_dictionary" :=
       remove_fastly_dictionary_entries fastly;
     "add_entries_to_acl" := upload_fastly_acl_entries fastly;
     "remove_all_acl_entries" := remove_all_acl_entries fastly;
     "remove_acl_entries" := remove_acl_entries fastly;
     "backup_fastly_dictionary" := backup_fastly_dictionary fastly;
     "backup_acl" := backup_acl fastly;
     "remove_old_fastly_dictionary_entries" :=
       remove_old_fastly_dictionary_entries fastly;
     "remove_all_dictionary_entries" := remove_all_dictionary_entries fastly ]}.

(** The frame of [main] stopped at [lineno]. *)
Definition main_at (lineno : nat) (code : string) : FrameSummary :=
  {| frame_filename := main_py; frame_lineno := lineno;
     frame_name := "main"; frame_line := code |}.

(** Lines 49 to 55: the keyword arguments prepared for the operation. *)
Definition prepare_arguments (operation_parameters : list string)
    (args : Namespace) : gmap string value :=
  foldl (λ operation_arguments parameter_name,
           match vars args !! parameter_name with
           | Some (Some v) => <[parameter_name := v]> operation_arguments
           | Some None => operation_arguments
           | None => operation_arguments
           end)
        ∅ operation_parameters.

(** Both error paths: [error_handler(error=error_message,
    line_num=line_number())] at [lineno], then
    [raise Exception(error_message)]. *)
Definition report_and_raise {A} (callers : list FrameSummary) (lineno : nat)
    (error_message : string) : M process A :=
  let here : list FrameSummary :=
    (callers
     ++ [main_at lineno
           "error_handler(error=error_message, line_num=line_number())"])%list
  in
  let* line_num := lift_result (line_number here) in
  in_os (error_handler logger_py here error_message line_num) ;;;
  raise (Exception error_message).

(** [main], from line 41 on: [args] is what [parse_arguments] returned. *)
Definition main (callers : list FrameSummary) (args : Namespace)
    : M process unit :=
  in_os (print ("Received arguments: " +:+ repr_vars args)) ;;;
  match OPERATIONS !! operation args with
  | Some operation_ =>
      let operation_parameters := parameters operation_ in
      let operation_arguments :=
        prepare_arguments operation_parameters args in
      try_except
        (let* operation_success :=
           invoke (operation args) operation_ operation_arguments in
         if negb (truthy operation_success) then
           let error_message :=
             "Operation, " +:+ operation args +:+ ", has failed." in
           report_and_raise callers 62 error_message
         else ret tt)
        is_Exception
        (λ e, raise (ExceptionFrom e))
  | None =>
      let error_message :=
        "Operation, '" +:+ operation args
        +:+ "', does not exist or is unavailable." in
      report_and_raise callers 70 error_message
  end.

End Main.
End Main.

Import Main.

(** ** Sample runs *)

Module Samples.

Definition afternoon : struct_time :=
  {| tm_year := 2024; tm_mon := 3; tm_mday := 9; tm_hour := 15;
     tm_min := 4; tm_sec := 5; tm_zone := "UTC" |}.

(** A world with the given files, the clock stopped at [afternoon]. *)
Definition world_of (files : gmap string string) : world :=
  {| fs := files; stdout := []; clock := λ _, afternoon; ticks := 0;
     unwritable := ∅; unremovable := ∅ |}.

(** The same, with paths that [os.remove] does not remove. *)
Definition world_keeping (files : gmap string string)
    (kept : gmap string refusal) : world :=
  {| fs := files; stdout := []; clock := λ _, afternoon; ticks := 0;
     unwritable := ∅; unremovable := kept |}.

(** The same, with paths that [open] does not open for writing. *)
Definition world_closing (files : gmap string string)
    (closed : gmap string refusal) : world :=
  {| fs := files; stdout := []; clock := λ _, afternoon; ticks := 0;
     unwritable := closed; unremovable := ∅ |}.

Definition logger_path : string := "/opt/tools/logger.py".
Definition main_path : string := "/opt/tools/main.py".

(** The frame of a script that calls into the logger. *)
Definition script_frame (lineno : nat) : FrameSummary :=
  {| frame_filename := "/home/ops/jobs\nightly.py"; frame_lineno := lineno;
     frame_name := "<module>"; frame_line := "" |}.

(** The frame of [main.py] at its last line, where [main()] is called. *)
Definition entry_frame : FrameSummary :=
  {| frame_filename := main_path; frame_lineno := 133;
     frame_name := "<module>"; frame_line := "main()" |}.


(** A [fastly] module all of whose functions are the same handler. *)
Definition fastly_of (h : handler) : fastly_module :=
  {| upload_fastly_dictionary_entries := h;
     remove_fastly_dictionary_entries := h;
     upload_fastly_acl_entries := h;
     remove_all_acl_entries := h;
     remove_acl_entries := h;
     backup_fastly_dictionary := h;
     backup_acl := h;
     remove_old_fastly_dictionary_entries := h;
     remove_all_dictionary_entries := h |}.

Definition request (name : string) : Namespace :=
  {| operation := name; api_key := "k3y"; service_name := "shop";
     dictionary_name := Some "redirects"; acl_name := None;
     input_dictionary := None; dictionary_items := None;
     ips := Some ["10.0.0.1"] |}.

Definition start_of (w : world) : process := {| os := w; probe := [] |}.


(** A handler that declares the same parameters, prints the names it is
    called with, in the order of the declaration, and succeeds. *)
Definition noting : handler :=
  {| parameters := ["api_key"; "acl_name"; "ips"; "region"];
     call := λ kwargs,
       print ("called with "
              +:+ String.concat ","
                    (List.filter (λ name, bool_decide (is_Some (kwargs !! name)))
                       ["api_key"; "acl_name"; "ips"; "region"])) ;;;
       ret (RBool true) |}.


(** A stand-in for the text of [vars(args)]. *)
Definition no_repr : Namespace → string := λ _, "{}".

(** A file name with a line feed in it. *)
Definition two_line_name : string := "out" +:+ chr LF +:+ ".csv".

(** A log with one line in it. *)
Definition one_line_log : gmap string string :=
  {[ LOGFILE := chr LF +:+ "[03/09/2024 03:04:05 PM UTC, job.py: 1] begin " ]}.

(** A lone surrogate, U+D800, as a [str]. *)
Definition surrogate : string :=
  String (ascii_of_nat 237) (String (ascii_of_nat 160)
    (String (ascii_of_nat 128) "")).

(** A handler that raises [e]. *)
Definition raising (e : exn) : handler :=
  {| parameters := ["api_key"]; call := λ _, raise e |}.

End Samples.

(** ** Vocabulary of the statements *)

Module Spec.

(** What follows the last [sep] of [s]; [s] itself when it has none. *)
Fixpoint after_last (sep : ascii) (s : string) : string :=
  match s with
  | "" => ""
  | String c r =>
      if has_char sep r then after_last sep r
      else if Ascii.eqb c sep then r
      else s
  end.

(** A path without its directories, under either slash. *)
Definition base_name (path : string) : string :=
  after_last BACKSLASH (after_last "/" path).

(** The world after [n] more readings of the clock. *)
Definition tick (n : nat) (w : world) : world :=
  {| fs := fs w; stdout := stdout w; clock := clock w; ticks := n + ticks w;
     unwritable := unwritable w; unremovable := unremovable w |}.

(** The world after [text] went to the end of the file at [path]. *)
Definition appended (path text : string) (w : world) : world :=
  set_fs (insert path (default "" (fs w !! path) +:+ text)) w.

(** The world after [line] was printed. *)
Definition printed (line : string) (w : world) : world :=
  {| fs := fs w; stdout := stdout w ++ [line]; clock := clock w;
     ticks := ticks w; unwritable := unwritable w;
     unremovable := unremovable w |}.

(** The world after a line feed and [line] went to the log and [line] was
    printed. *)
Definition logged (line : string) (w : world) : world :=
  printed line (appended LOGFILE (String LF line) w).

(** The log line that the caller at [filename], [line_no] gets for [text]
    when the date is read at the next reading of the clock and the time at
    the one after. *)
Definition entry (w : world) (filename : string) (line_no : nat)
    (text : string) : string :=
  log_format (strftime_at "%m/%d/%Y" (clock w (ticks w)))
             (strftime_at "%I:%M:%S %p %Z" (clock w (S (ticks w))))
             filename line_no text.

(** The date and the time in front of that line. *)
Definition stamp (w : world) : string :=
  strftime_at "%m/%d/%Y" (clock w (ticks w)) +:+ " "
  +:+ strftime_at "%I:%M:%S %p %Z" (clock w (S (ticks w))).

(** The process after [main] printed the arguments it received. *)
Definition greeted (repr_vars : Namespace → string) (args : Namespace)
    (p : process) : process :=
  {| os := printed ("Received arguments: " +:+ repr_vars args) (os p);
     probe := probe p |}.

(** The line that [main], stopped at [lineno], has the logger write for
    [error_message] in the world [w]: [error_handler] makes the message
    with the file of [main], and [write_to_logfile] makes the line with
    the file of the logger and the line of its call in [error_handler]. *)
Definition error_line (main_py logger_py : string) (w : world) (lineno : nat)
    (error_message : string) : string :=
  entry w (base_name logger_py) 55
    (error_format (base_name main_py) lineno error_message).

(** What [write_to_file] puts in the data file for a row: its record, or
    the record of the placeholder when the row cannot be encoded. *)
Definition written_record (entry : list string) : string :=
  if utf8_valid (csv_record entry) then csv_record entry
  else csv_record placeholder_row.

(** The number of [c] in [s]. *)
Fixpoint count_char (c : ascii) (s : string) : nat :=
  match s with
  | "" => 0
  | String d r => (if Ascii.eqb d c then 1 else 0) + count_char c r
  end.

(** The process after the handler registered as [name] was called with
    [kwargs] and left the world [w]. *)
Definition called (name : string) (kwargs : gmap string value) (w : world)
    (p : process) : process :=
  {| os := w; probe := probe p ++ [(name, kwargs)] |}.

(** The text of a pair on the command line. *)
Definition pair_text (kv : string * string) : string :=
  kv.1 +:+ ":" +:+ kv.2.

(** A key or a value that the format can carry: no comma, no colon. *)
Definition plain (s : string) : bool :=
  negb (has_char "," s) && negb (has_char ":" s).

(** A name with neither slash. *)
Definition slashless (name : string) : bool :=
  negb (has_char "/" name) && negb (has_char BACKSLASH name).

(** A line: no line feed, unless as its last byte. *)
Definition one_line (s : string) : Prop :=
  s = "" ∨ ∃ (b : string) (x : ascii), s = b +:+ chr x ∧ has_char LF b = false.

(** Every file of [w] is in [w'], with what it held at its start. *)
Definition grown (w w' : world) : Prop :=
  ∀ path old, fs w !! path = Some old →
    ∃ more, fs w' !! path = Some (old +:+ more).

(** No file but the log differs between [w] and [w']. *)
Definition same_but_log (w w' : world) : Prop :=
  ∀ path, path ≠ LOGFILE → fs w' !! path = fs w !! path.

(** A computation all of whose runs, returning or raising, relate the
    world before to the world after by [R]. *)
Definition always {A} (R : world → world → Prop) (m : M world A) : Prop :=
  ∀ w, R w (m w).2.

(** [for row in rows: write_to_file(filename, row)], from one line of a
    caller. *)
Definition write_rows (logger_py : string) (callers : list FrameSummary)
    (filename : string) (rows : list (list string)) : M world unit :=
  for_each (write_to_file logger_py callers filename) rows.

(** The records of [rows], one after the other. *)
Definition records (rows : list (list string)) : string :=
  foldr (λ row rest, written_record row +:+ rest) "" rows.


(** A name with the extension: it ends with a dot and the extension. *)
Definition has_extension (file_extension name : string) : Prop :=
  ∃ stem, name = stem +:+ "." +:+ file_extension.

(** The path of [name] in [directory]: a slash comes between the two
    unless the directory is the empty text or ends with one. *)
Definition in_directory (directory name path : string) : Prop :=
  ((directory = "" ∨ ∃ d, directory = d +:+ "/")
   ∧ path = directory +:+ name)
  ∨ (directory ≠ "" ∧ (∀ d, directory ≠ d +:+ "/")
     ∧ path = directory +:+ "/" +:+ name).

(** A path that [remove_old_files] is after: a name of the listing with
    the extension, in the directory. *)
Definition removable (listing : list string)
    (file_extension directory path : string) : Prop :=
  ∃ name, name ∈ listing
          ∧ has_extension file_extension name
          ∧ in_directory directory name path.

End Spec.

Import Spec.

(** * Properties *)

#[local] Arguments String.append !_ _ / : simpl nomatch.
#[local] Arguments strftime_at : simpl never.
#[local] Arguments log_format : simpl never.
#[local] Arguments utf8_valid : simpl never.

(** ** Text *)

Section Text.

Lemma str_app_cons (c : ascii) (a b : string) :
  String c a +:+ b = String c (a +:+ b).
Proof. done. Qed.

Lemma str_app_assoc (a b c : string) : (a +:+ b) +:+ c = a +:+ (b +:+ c).
Proof. induction a as [|x a IH]; [done|]. cbn. by rewrite IH. Qed.

Lemma str_length_app (a b : string) :
  String.length (a +:+ b) = String.length a + String.length b.
Proof. induction a as [|x a IH]; [done|]. cbn. by rewrite IH. Qed.

Lemma get_app_l (a b : string) (n : nat) :
  n < String.length a → String.get n (a +:+ b) = String.get n a.
Proof.
  revert n. induction a as [|x a IH]; intros n Hn; cbn in *; [lia|].
  destruct n as [|n]; [done|]. apply IH. lia.
Qed.

Lemma get_app_r (a b : string) (n : nat) :
  String.get (String.length a + n) (a +:+ b) = String.get n b.
Proof. induction a as [|x a IH]; [done|]. cbn. apply IH. Qed.

Lemma get_some_lt (s : string) (n : nat) :
  n < String.length s → ∃ c, String.get n s = Some c.
Proof.
  revert n. induction s as [|x s IH]; intros n Hn; simpl in *; [lia|].
  destruct n as [|n]; [eauto|]. apply IH. lia.
Qed.

Lemma has_char_app (c : ascii) (a b : string) :
  has_char c (a +:+ b) = has_char c a || has_char c b.
Proof.
  induction a as [|x a IH]; [done|]. cbn. rewrite IH.
  by rewrite orb_assoc.
Qed.

Lemma has_char_get (c : ascii) (s : string) (n : nat) :
  has_char c s = false → String.get n s ≠ Some c.
Proof.
  revert n. induction s as [|x s IH]; intros n Hs; cbn in *; [done|].
  apply orb_false_elim in Hs as [Hx Hs].
  destruct n as [|n]; [|by apply IH].
  intros [= ->]. by rewrite Ascii.eqb_refl in Hx.
Qed.

Lemma drop_bytes_app (a b : string) :
  drop_bytes (String.length a) (a +:+ b) = b.
Proof. induction a as [|x a IH]; [by destruct b|]. cbn. apply IH. Qed.

Lemma first_line_whole (b : string) (x : ascii) :
  has_char LF b = false → first_line (b +:+ chr x) = b +:+ chr x.
Proof.
  induction b as [|c b IH]; intros Hb; cbn in *.
  - by destruct (Ascii.eqb x LF).
  - apply orb_false_elim in Hb as [-> Hb]. by rewrite IH.
Qed.

(** A text has no line feed, or a last one. *)
Lemma last_lf_split (s : string) :
  has_char LF s = false
  ∨ ∃ s1 s2, s = s1 +:+ String LF s2 ∧ has_char LF s2 = false.
Proof.
  induction s as [|c s [IH|(s1 & s2 & -> & IH)]]; [by left| |].
  - destruct (Ascii.eqb c LF) eqn:Hc.
    + apply Ascii.eqb_eq in Hc as ->. right. by exists "", s.
    + left. simpl. by rewrite Hc.
  - right. by exists (String c s1), s2.
Qed.

End Text.

(** ** Containment *)

Section Containment.






End Containment.

(** ** UTF-8 around an ASCII byte *)

Section Utf8.


Variable c : ascii.
Hypothesis c_ascii : byte_in 0 127 c = true.







End Utf8.


(** ** Running computations *)

Section Running.

Context {S A B : Type}.

Lemma bind_return (m : M S A) (k : A → M S B) (s s' : S) (a : A) :
  m s = (Return a, s') → bind m k s = k a s'.
Proof. intros H. unfold bind. by rewrite H. Qed.

Lemma bind_raise (m : M S A) (k : A → M S B) (s s' : S) (e : exn) :
  m s = (Raise e, s') → bind m k s = (Raise e, s').
Proof. intros H. unfold bind. by rewrite H. Qed.

End Running.

Section Files.

Lemma strftime_reads (fmt : string) (w : world) :
  strftime fmt w = (Return (strftime_at fmt (clock w (ticks w))), tick 1 w).
Proof. done. Qed.

(** The log is always opened. *)
Lemma open_error_log (w : world) : open_error w LOGFILE = None.
Proof. done. Qed.

Lemma open_append_run (path : string) (w : world) :
  open_error w path = None →
  open_append path w = (Return tt, (open_append path w).2).
Proof. intros H. unfold open_append. by rewrite H. Qed.

Lemma open_append_refused (path : string) (r : refusal) (w : world) :
  open_error w path = Some r →
  open_append path w = (Raise (refused r path), w).
Proof. intros H. unfold open_append. by rewrite H. Qed.



(** Opening a file and then writing to it leaves what writing alone
    would. *)
Lemma open_append_appended (path text : string) (n : nat) (w : world) :
  open_error w path = None →
  appended path text (tick n (open_append path w).2)
  = appended path text (tick n w).
Proof.
  intros H. unfold open_append, appended, set_fs. rewrite H. simpl.
  destruct (fs w !! path) as [old|] eqn:Hold; simpl.
  { by rewrite Hold. }
  by rewrite lookup_insert_eq, insert_insert_eq.
Qed.

Lemma open_append_then_appended (path text : string) (w : world) :
  open_error w path = None →
  appended path text (open_append path w).2 = appended path text w.
Proof.
  intros H. unfold open_append, appended, set_fs. rewrite H. simpl.
  destruct (fs w !! path) as [old|] eqn:Hold; simpl.
  { by rewrite Hold. }
  by rewrite lookup_insert_eq, insert_insert_eq.
Qed.

Lemma write_valid (path text : string) (w : world) :
  utf8_valid text = true → write path text w = (Return tt, appended path text w).
Proof. intros H. unfold write. by rewrite H. Qed.

Lemma write_invalid (path text : string) (w : world) :
  utf8_valid text = false → write path text w = (Raise UnicodeEncodeError, w).
Proof. intros H. unfold write. by rewrite H. Qed.



End Files.

(** ** Paths and stacks *)

Section Paths.

Lemma neg_index_last {A} (l : list A) : neg_index l 1 = last l.
Proof.
  unfold neg_index. destruct l as [|y l _] using rev_ind; [done|].
  by rewrite rev_unit, last_snoc.
Qed.

Lemma neg_index_caller {A} (l : list A) (x y : A) :
  neg_index (l ++ [x; y]) 2 = Some x.
Proof. unfold neg_index. by rewrite rev_app_distr. Qed.

Lemma split_without (sep : ascii) (s : string) :
  has_char sep s = false → split sep s = [s].
Proof.
  induction s as [|c s IH]; intros H; simpl in *; [done|].
  apply orb_false_elim in H as [-> H]. by rewrite IH.
Qed.

Lemma split_with (sep : ascii) (s : string) :
  has_char sep s = true → ∃ h x t, split sep s = h :: x :: t.
Proof.
  induction s as [|c s IH]; intros H; simpl in *; [done|].
  destruct (Ascii.eqb c sep) eqn:Hc.
  - destruct s as [|d s]; simpl; [by eauto|].
    destruct (Ascii.eqb d sep); [by eauto|].
    destruct (split sep s); eauto.
  - simpl in H. destruct (IH H) as (h & x & t & ->). eauto.
Qed.

Lemma split_last (sep : ascii) (s : string) :
  last (split sep s) = Some (after_last sep s).
Proof.
  induction s as [|c s IH]; simpl; [done|].
  destruct (has_char sep s) eqn:Hs.
  - destruct (split_with sep s Hs) as (h & x & t & Hsplit).
    rewrite Hsplit in *. by destruct (Ascii.eqb c sep).
  - rewrite (split_without sep s Hs). by destruct (Ascii.eqb c sep).
Qed.

Lemma strip_directories_base_name (path : string) :
  strip_directories path = Return (base_name path).
Proof.
  unfold strip_directories, base_name.
  rewrite neg_index_last, split_last.
  by rewrite neg_index_last, split_last.
Qed.

Lemma after_last_suffix (sep : ascii) (s : string) :
  ∃ dir, s = dir +:+ after_last sep s.
Proof.
  induction s as [|c s [dir IH]]; simpl; [by exists ""|].
  destruct (has_char sep s).
  - exists (String c dir). simpl. by rewrite <-IH.
  - destruct (Ascii.eqb c sep); [by exists (chr c)|by exists ""].
Qed.

Lemma after_last_clean (sep : ascii) (s : string) :
  has_char sep (after_last sep s) = false.
Proof.
  induction s as [|c s IH]; simpl; [done|].
  destruct (has_char sep s) eqn:Hs; [done|].
  destruct (Ascii.eqb c sep) eqn:Hc; [done|]. simpl. by rewrite Hc, Hs.
Qed.

Lemma after_last_keeps_clean (sep c : ascii) (s : string) :
  has_char c s = false → has_char c (after_last sep s) = false.
Proof.
  intros H. destruct (after_last_suffix sep s) as [dir Hdir].
  rewrite Hdir, has_char_app in H. by apply orb_false_elim in H as [_ ?].
Qed.

(** The base name is the end of the path and has neither slash. *)
Lemma base_name_stripped (path : string) :
  (∃ dir, path = dir +:+ base_name path)
  ∧ has_char "/" (base_name path) = false
  ∧ has_char BACKSLASH (base_name path) = false.
Proof.
  unfold base_name. split; [|split].
  - destruct (after_last_suffix "/" path) as [d1 H1].
    destruct (after_last_suffix BACKSLASH (after_last "/" path)) as [d2 H2].
    exists (d1 +:+ d2). by rewrite str_app_assoc, <-H2.
  - apply after_last_keeps_clean, after_last_clean.
  - apply after_last_clean.
Qed.

End Paths.

(** ** The last line of a file *)

Section LastLine.

Lemma seek_line_start_unfold (data : string) (pos : nat) :
  seek_line_start data pos =
  let (b, pos1) := read1 data pos in
  if String.eqb b (chr LF) then Return pos1
  else match seek_cur pos1 (-2) with
       | Return pos2 => seek_line_start data pos2
       | Raise e => Raise e
       end.
Proof.
  funelim (seek_line_start data pos);
    repeat match goal with
           | H : read1 _ _ = _ |- _ => rewrite H
           | H : String.eqb _ _ = _ |- _ => rewrite H
           | H : seek_cur _ _ = _ |- _ => rewrite H
           end; done.
Qed.

Lemma seek_cur_back (pos : nat) : seek_cur (S (S pos)) (-2) = Return pos.
Proof.
  unfold seek_cur, seek_from.
  destruct (Z.of_nat (S (S pos)) + -2 <? 0)%Z eqn:H; [apply Z.ltb_lt in H; lia|].
  f_equal. lia.
Qed.

(** Reading at a line feed ends the loop just after it. *)
Lemma seek_line_start_at_lf (data : string) (pos : nat) :
  String.get pos data = Some LF → seek_line_start data pos = Return (S pos).
Proof.
  intros H. rewrite seek_line_start_unfold. unfold read1. by rewrite H.
Qed.

(** Reading anything else steps one byte back, or fails at the start. *)
Lemma seek_line_start_step (data : string) (pos : nat) (c : ascii) :
  String.get pos data = Some c → c ≠ LF →
  seek_line_start data pos =
  match pos with
  | 0 => Raise OSError
  | S p => seek_line_start data p
  end.
Proof.
  intros H Hc. rewrite seek_line_start_unfold. unfold read1. rewrite H.
  assert (String.eqb (chr c) (chr LF) = false) as ->.
  { apply String.eqb_neq. intros [= ->]. done. }
  destruct pos as [|p]; [done|]. by rewrite seek_cur_back.
Qed.

(** From inside a stretch without line feed that follows a line feed, the
    loop ends just after that line feed. *)
Lemma seek_line_start_found (a b rest : string) (j : nat) :
  has_char LF b = false → (j ≤ String.length b)%nat →
  seek_line_start (a +:+ String LF (b +:+ rest)) (String.length a + j)
  = Return (S (String.length a)).
Proof.
  intros Hb. induction j as [|j IH]; intros Hj.
  - rewrite Nat.add_0_r. apply seek_line_start_at_lf.
    rewrite <-(Nat.add_0_r (String.length a)) at 1. by rewrite get_app_r.
  - destruct (get_some_lt b j) as [c Hc]; [lia|].
    rewrite (seek_line_start_step _ _ c).
    + replace (String.length a + S j) with (S (String.length a + j)) by lia.
      apply IH. lia.
    + replace (String.length a + S j) with (String.length a + S j) by lia.
      rewrite get_app_r. simpl. by rewrite get_app_l by lia.
    + intros ->. by apply (has_char_get LF b j).
Qed.

(** With no line feed up to the starting position, the loop runs into the
    start of the file. *)
Lemma seek_line_start_missing (b rest : string) (j : nat) :
  has_char LF b = false → j < String.length b →
  seek_line_start (b +:+ rest) j = Raise OSError.
Proof.
  intros Hb. induction j as [|j IH]; intros Hj.
  - destruct (get_some_lt b 0) as [c Hc]; [done|].
    rewrite (seek_line_start_step _ _ c); [done|by rewrite get_app_l|].
    intros ->. by apply (has_char_get LF b 0).
  - destruct (get_some_lt b (S j)) as [c Hc]; [done|].
    rewrite (seek_line_start_step _ _ c); [apply IH; lia|by rewrite get_app_l|].
    intros ->. by apply (has_char_get LF b (S j)).
Qed.

Lemma seek_end_back (data : string) (n : nat) :
  String.length data = S (S n) → seek_end data (-2) = Return n.
Proof. intros H. unfold seek_end. rewrite H. apply seek_cur_back. Qed.

Lemma last_line_of_file_multi (path : string) (w : world)
    (a b : string) (x : ascii) :
  fs w !! path = Some (a +:+ String LF (b +:+ chr x)) →
  has_char LF b = false →
  last_line_of_file path w = (decode (b +:+ chr x), w).
Proof.
  intros Hfile Hb. unfold last_line_of_file, bind, open_rb, lift_result.
  rewrite Hfile. simpl.
  rewrite (seek_end_back _ (String.length a + String.length b)).
  2:{ rewrite str_length_app. simpl. rewrite str_length_app. simpl. lia. }
  rewrite seek_line_start_found by done.
  unfold readline.
  replace (S (String.length a)) with (String.length (a +:+ chr LF)).
  2:{ rewrite str_length_app. simpl. lia. }
  replace (a +:+ String LF (b +:+ chr x))
    with ((a +:+ chr LF) +:+ (b +:+ chr x)) by by rewrite str_app_assoc.
  by rewrite drop_bytes_app, first_line_whole.
Qed.

Lemma last_line_of_file_single (path : string) (w : world)
    (b : string) (x : ascii) :
  fs w !! path = Some (b +:+ chr x) →
  has_char LF b = false →
  last_line_of_file path w = (decode (b +:+ chr x), w).
Proof.
  intros Hfile Hb. unfold last_line_of_file, bind, open_rb, lift_result.
  rewrite Hfile. simpl.
  assert (match seek_end (b +:+ chr x) (-2) with
          | Return pos => seek_line_start (b +:+ chr x) pos
          | Raise e => Raise e
          end = Raise OSError) as ->.
  { destruct b as [|c b]; [done|].
    rewrite (seek_end_back _ (String.length b)).
    2:{ simpl. rewrite str_length_app. simpl. lia. }
    apply seek_line_start_missing; [done|simpl; lia]. }
  simpl. unfold readline. simpl. by rewrite first_line_whole.
Qed.

Lemma last_line_of_file_empty (path : string) (w : world) :
  fs w !! path = Some "" → last_line_of_file path w = (Return "", w).
Proof.
  intros Hfile. unfold last_line_of_file, bind, open_rb, lift_result.
  by rewrite Hfile.
Qed.




(** A file that is not empty ends with a byte; before it comes a stretch
    without line feed, itself at the start of the file or behind a line
    feed: the two shapes the statement below tells apart. *)
Lemma file_shapes (data : string) :
  data = ""
  ∨ (∃ (b : string) (x : ascii),
       data = b +:+ chr x ∧ has_char LF b = false)
  ∨ (∃ (a b : string) (x : ascii),
       data = a +:+ String LF (b +:+ chr x) ∧ has_char LF b = false).
Proof.
  assert (∀ s : string, s = "" ∨ ∃ init x, s = init +:+ chr x) as Hsnoc.
  { induction s as [|c s [->|(init & x & ->)]]; [by left|right..].
    - by exists "", c.
    - by exists (String c init), x. }
  destruct (Hsnoc data) as [->|(init & x & ->)]; [by left|right].
  destruct (last_lf_split init) as [Hinit|(s1 & s2 & -> & Hs2)].
  - left. by exists init, x.
  - right. exists s1, s2, x. by rewrite str_app_assoc.
Qed.

(** C4, amended.  [tail_line]: on a file whose content is [a], a line
    feed, then [b] without line feed and one last byte [x], the result is
    [b] and [x] decoded, so the final line with its line feed when the file
    ends with one; on a file of [b] without line feed and one last byte
    [x], it is the whole content; on an empty file it is the empty text,
    and nothing is raised. *)
Theorem last_line_of_file_final_line (path : string) (w : world) :
  (∀ (a b : string) (x : ascii),
     fs w !! path = Some (a +:+ String LF (b +:+ chr x)) →
     has_char LF b = false →
     last_line_of_file path w = (decode (b +:+ chr x), w))
  ∧ (∀ (b : string) (x : ascii),
       fs w !! path = Some (b +:+ chr x) →
       has_char LF b = false →
       last_line_of_file path w = (decode (b +:+ chr x), w))
  ∧ (fs w !! path = Some "" → last_line_of_file path w = (Return "", w)).
Proof.
  split; [|split].
  - intros a b x. apply last_line_of_file_multi.
  - intros b x. apply last_line_of_file_single.
  - apply last_line_of_file_empty.
Qed.

End LastLine.

(** ** Log lines *)

(** The steps every function of the logger starts with: the stack, its
    frame before the last, and the base name of the file of that frame. *)
Ltac find_caller :=
  unfold extract_stack; rewrite <-(assoc_L (++)); simpl app;
  rewrite neg_index_caller; simpl of_option;
  erewrite bind_return by done;
  rewrite strip_directories_base_name;
  erewrite bind_return by done.

Section LogLines.

Variable logger_py : string.

(** What [write_to_logfile] does up to its [write], for a text that is not
    empty: the line it makes, and the world it makes it in. *)
Lemma write_to_logfile_unfold (callers : list FrameSummary)
    (caller : FrameSummary) (log_text : string) (w : world) :
  log_text ≠ "" →
  write_to_logfile logger_py (callers ++ [caller]) log_text w
  = let line := entry w (base_name (frame_filename caller))
                  (frame_lineno caller) log_text in
    (write LOGFILE (String LF line) ;;; print line)
      (tick 2 (open_append LOGFILE w).2).
Proof.
  intros Htext. apply String.eqb_neq in Htext.
  unfold write_to_logfile.
  erewrite bind_return by done.
  find_caller.
  rewrite Htext. simpl negb. cbv iota.
  unfold bind at 1. unfold bind at 1. unfold now_date, now_time.
  rewrite strftime_reads.
  unfold bind at 1. rewrite strftime_reads. unfold ret.
  unfold entry. simpl.
  destruct (fs w !! LOGFILE); done.
Qed.

Lemma write_to_logfile_entry (callers : list FrameSummary)
    (caller : FrameSummary) (log_text : string) (w : world) :
  log_text ≠ "" →
  utf8_valid (entry w (base_name (frame_filename caller))
                (frame_lineno caller) log_text) = true →
  write_to_logfile logger_py (callers ++ [caller]) log_text w
  = (Return tt,
     logged (entry w (base_name (frame_filename caller))
               (frame_lineno caller) log_text) (tick 2 w)).
Proof.
  intros Htext Hvalid. rewrite write_to_logfile_unfold by done. cbv zeta.
  erewrite bind_return by (by apply write_valid).
  by rewrite open_append_appended.
Qed.

Lemma write_to_logfile_unencodable (callers : list FrameSummary)
    (caller : FrameSummary) (log_text : string) (w : world) :
  log_text ≠ "" →
  utf8_valid (entry w (base_name (frame_filename caller))
                (frame_lineno caller) log_text) = false →
  write_to_logfile logger_py (callers ++ [caller]) log_text w
  = (Raise UnicodeEncodeError, tick 2 (open_append LOGFILE w).2).
Proof.
  intros Htext Hvalid. rewrite write_to_logfile_unfold by done. cbv zeta.
  erewrite bind_raise; [done|]. by apply write_invalid.
Qed.

Lemma write_to_logfile_blank (callers : list FrameSummary)
    (caller : FrameSummary) (w : world) :
  write_to_logfile logger_py (callers ++ [caller]) "" w
  = (Return tt, logged "" w).
Proof.
  unfold write_to_logfile.
  erewrite bind_return by done.
  find_caller.
  simpl String.eqb. cbv iota. simpl negb. cbv iota.
  erewrite bind_return by done.
  erewrite bind_return by (by apply write_valid).
  unfold logged, print. f_equal. f_equal.
  unfold open_append, appended, set_fs. simpl.
  destruct (fs w !! LOGFILE) as [old|] eqn:Hold; simpl.
  { by rewrite Hold. }
  by rewrite lookup_insert_eq, insert_insert_eq.
Qed.

Lemma error_handler_entry (callers : list FrameSummary)
    (caller : FrameSummary) (error : string) (line_num : nat) (w : world) :
  let e := error_format (base_name (frame_filename caller)) line_num error in
  utf8_valid (entry w (base_name logger_py) 55 e) = true →
  error_handler logger_py (callers ++ [caller]) error line_num w
  = (Return e, logged (entry w (base_name logger_py) 55 e) (tick 2 w)).
Proof.
  intros e Hvalid. unfold error_handler.
  find_caller.
  erewrite bind_return; [done|].
  by apply (write_to_logfile_entry (callers ++ [caller])
              (frame_at logger_py 55 "error_handler" "write_to_logfile(e)")).
Qed.

Lemma error_handler_unencodable (callers : list FrameSummary)
    (caller : FrameSummary) (error : string) (line_num : nat) (w : world) :
  utf8_valid (entry w (base_name logger_py) 55
                (error_format (base_name (frame_filename caller)) line_num
                   error)) = false →
  error_handler logger_py (callers ++ [caller]) error line_num w
  = (Raise UnicodeEncodeError, tick 2 (open_append LOGFILE w).2).
Proof.
  intros Hvalid. unfold error_handler.
  find_caller.
  erewrite bind_raise; [done|].
  by apply (write_to_logfile_unencodable (callers ++ [caller])
              (frame_at logger_py 55 "error_handler" "write_to_logfile(e)")).
Qed.

(** A line of the log starts with its bracket. *)
Lemma entry_bracket (w : world) (filename : string) (line_no : nat)
    (text : string) :
  ∃ rest, entry w filename line_no text = String "[" rest.
Proof. unfold entry, log_format. simpl. eauto. Qed.

(** A line of the log, written out. *)
Lemma entry_stamp (w : world) (filename : string) (line_no : nat)
    (text : string) :
  entry w filename line_no text
  = "[" +:+ stamp w +:+ ", " +:+ filename +:+ ": " +:+ str_of_int line_no
    +:+ "] " +:+ text +:+ " ".
Proof.
  unfold entry, log_format, stamp.
  by repeat (rewrite str_app_assoc || rewrite str_app_cons).
Qed.

(** The message of [error_handler], written out. *)
Lemma error_format_text (filename : string) (line_num : nat)
    (error : string) :
  error_format filename line_num error
  = "  Error [File: " +:+ filename +:+ " Line: " +:+ str_of_int line_num
    +:+ "] - " +:+ error.
Proof. done. Qed.


(** What the other two cases of [write_line] do: a non-empty text is
    written after a line feed as [[date time, file: line] text ], the empty
    text as the line feed alone. *)
Lemma write_to_logfile_lines (callers : list FrameSummary)
    (caller : FrameSummary) (log_text : string) (w : world) :
  (log_text ≠ "" →
   utf8_valid (entry w (base_name (frame_filename caller))
                 (frame_lineno caller) log_text) = true →
   write_to_logfile logger_py (callers ++ [caller]) log_text w
   = (Return tt,
      logged (entry w (base_name (frame_filename caller))
                (frame_lineno caller) log_text) (tick 2 w)))
  ∧ write_to_logfile logger_py (callers ++ [caller]) "" w
    = (Return tt, logged "" w).
Proof.
  split; [apply write_to_logfile_entry|apply write_to_logfile_blank].
Qed.

(** C2, as the code has it.  [write_line] called with the [START_SCRIPT]
    marker does not write the marker verbatim: the test for a non-empty
    text comes first, so the marker gets the timestamp and caller prefix of
    any other text, and the line written differs from the marker. *)
Theorem write_to_logfile_start_script_prefixed
    (callers : list FrameSummary) (caller : FrameSummary) (w : world) :
  utf8_valid (entry w (base_name (frame_filename caller))
                (frame_lineno caller) START_SCRIPT) = true →
  write_to_logfile logger_py (callers ++ [caller]) START_SCRIPT w
  = (Return tt,
     logged (entry w (base_name (frame_filename caller))
               (frame_lineno caller) START_SCRIPT) (tick 2 w))
  ∧ entry w (base_name (frame_filename caller)) (frame_lineno caller)
      START_SCRIPT ≠ START_SCRIPT.
Proof.
  intros Hvalid. split.
  - by apply write_to_logfile_entry.
  - destruct (entry_bracket w (base_name (frame_filename caller))
                (frame_lineno caller) START_SCRIPT) as [rest ->].
    done.
Qed.

(** C5, amended.  The file and line in front of a log line are those of
    the frame that called [write_to_logfile], second to last of the stack
    taken there, the file without its directories under either slash: the
    line is [[date time, file: line] text ].  A line that [record_error]
    logs therefore carries the logger's own file and line 55 in front; the
    file of the caller of [record_error], and the line number it passed,
    are in the message, [  Error [File: file Line: line] - error]. *)
Theorem log_line_names_caller_of_write_to_logfile
    (callers : list FrameSummary) (caller : FrameSummary)
    (log_text error : string) (line_num : nat) (w : world) :
  log_text ≠ "" →
  utf8_valid (entry w (base_name (frame_filename caller))
                (frame_lineno caller) log_text) = true →
  utf8_valid (entry w (base_name logger_py) 55
                (error_format (base_name (frame_filename caller)) line_num
                   error)) = true →
  write_to_logfile logger_py (callers ++ [caller]) log_text w
  = (Return tt,
     logged (entry w (base_name (frame_filename caller))
               (frame_lineno caller) log_text) (tick 2 w))
  ∧ error_handler logger_py (callers ++ [caller]) error line_num w
    = (Return (error_format (base_name (frame_filename caller)) line_num
                 error),
       logged (entry w (base_name logger_py) 55
                 (error_format (base_name (frame_filename caller)) line_num
                    error)) (tick 2 w))
  ∧ (∃ dir, frame_filename caller
            = dir +:+ base_name (frame_filename caller))
  ∧ has_char "/" (base_name (frame_filename caller)) = false
  ∧ has_char BACKSLASH (base_name (frame_filename caller)) = false
  ∧ entry w (base_name (frame_filename caller)) (frame_lineno caller)
      log_text
    = "[" +:+ stamp w +:+ ", " +:+ base_name (frame_filename caller)
      +:+ ": " +:+ str_of_int (frame_lineno caller) +:+ "] " +:+ log_text
      +:+ " "
  ∧ entry w (base_name logger_py) 55
      (error_format (base_name (frame_filename caller)) line_num error)
    = "[" +:+ stamp w +:+ ", " +:+ base_name logger_py +:+ ": 55] "
      +:+ "  Error [File: " +:+ base_name (frame_filename caller)
      +:+ " Line: " +:+ str_of_int line_num +:+ "] - " +:+ error +:+ " "
  ∧ error_format (base_name (frame_filename caller)) line_num error
    = "  Error [File: " +:+ base_name (frame_filename caller)
      +:+ " Line: " +:+ str_of_int line_num +:+ "] - " +:+ error.
Proof.
  intros Htext Hline Herror.
  split; [by apply write_to_logfile_entry|].
  split; [by apply error_handler_entry|].
  destruct (base_name_stripped (frame_filename caller)) as (Hdir & H1 & H2).
  split; [done|]. split; [done|]. split; [done|].
  split; [apply entry_stamp|]. split; [|done].
  rewrite entry_stamp, error_format_text.
  change (str_of_int 55) with "55".
  by repeat (rewrite str_app_assoc || rewrite str_app_cons).
Qed.

End LogLines.

(** ** Writing rows *)

Section Rows.

Variable logger_py : string.

Lemma placeholder_valid : utf8_valid (csv_record placeholder_row) = true.
Proof. done. Qed.

(** Once the notice is dealt with and the data file is opened, the call
    returns with the record of the row, or of the placeholder, at the end
    of the data file. *)
Lemma write_to_file_after_announce (callers : list FrameSummary)
    (filename : string) (entry : list string) (w w1 : world) :
  announce logger_py callers filename w = (Return tt, w1) →
  open_error w1 filename = None →
  write_to_file logger_py callers filename entry w
  = (Return tt, appended filename (written_record entry) w1).
Proof.
  intros Hannounce Hopen. unfold write_to_file.
  erewrite bind_return by done.
  erewrite bind_return by by apply open_append_run.
  unfold try_except, writerow, written_record.
  destruct (utf8_valid (csv_record entry)) eqn:Hrow.
  - rewrite write_valid by done. by rewrite open_append_then_appended.
  - rewrite write_invalid by done. simpl is_UnicodeEncodeError. cbv iota.
    rewrite write_valid by apply placeholder_valid.
    by rewrite open_append_then_appended.
Qed.

(** When the data file is not opened the call raises what [open] raises,
    after the notice was dealt with, and no record is written. *)
Lemma write_to_file_refused (callers : list FrameSummary)
    (filename : string) (entry : list string) (r : refusal)
    (w w1 : world) :
  announce logger_py callers filename w = (Return tt, w1) →
  open_error w1 filename = Some r →
  write_to_file logger_py callers filename entry w
  = (Raise (refused r filename), w1).
Proof.
  intros Hannounce Hopen. unfold write_to_file.
  erewrite bind_return by done.
  erewrite bind_raise; [done|]. by apply open_append_refused.
Qed.




(** C10.  [append_row] reads the last line of the log first: while the log
    file does not exist the call raises [FileNotFoundError] and leaves
    every file, the data file included, as it was. *)
Theorem write_to_file_requires_log (callers : list FrameSummary)
    (filename : string) (entry : list string) (w : world) :
  fs w !! LOGFILE = None →
  write_to_file logger_py callers filename entry w
  = (Raise (FileNotFoundError LOGFILE), w).
Proof.
  intros Hlog. unfold write_to_file, announce, last_line_of_file.
  erewrite bind_raise; [done|]. erewrite bind_raise; [done|].
  erewrite bind_raise; [done|]. unfold open_rb. by rewrite Hlog.
Qed.

(** C8.  A row whose record cannot be encoded does not make [append_row]
    raise: once the notice is dealt with and the data file is opened, the
    call returns, and the record of the placeholder,
    [U,n,i,c,o,d,e,E,n,c,o,d,e,E,r,r,o,r], is at the end of the data file
    in place of the record of the row.  A data file that [open] does not
    open makes the call raise what [open] raises, as for any row, and
    nothing is written to it. *)
Theorem write_to_file_unencodable_row (callers : list FrameSummary)
    (filename : string) (entry : list string) (w w1 : world) :
  utf8_valid (csv_record entry) = false →
  announce logger_py callers filename w = (Return tt, w1) →
  (open_error w1 filename = None →
   write_to_file logger_py callers filename entry w
   = (Return tt,
      appended filename ("U,n,i,c,o,d,e,E,n,c,o,d,e,E,r,r,o,r" +:+ CRLF)
        w1))
  ∧ (∀ r : refusal,
       open_error w1 filename = Some r →
       write_to_file logger_py callers filename entry w
       = (Raise (refused r filename), w1)).
Proof.
  intros Hrow Hannounce. split.
  - intros Hopen.
    rewrite (write_to_file_after_announce _ _ _ _ w1) by done.
    unfold written_record. by rewrite Hrow.
  - intros r Hopen. by apply write_to_file_refused.
Qed.


End Rows.

(** ** Key and value pairs *)

Section Pairs.

Lemma split_length (sep : ascii) (s : string) :
  length (split sep s) = S (count_char sep s).
Proof.
  induction s as [|c s IH]; simpl; [done|].
  destruct (Ascii.eqb c sep); simpl; [by rewrite IH|].
  destruct (split sep s); simpl in *; lia.
Qed.

Lemma dict_of_pairs_raised (pairs : list (list string)) (e : exn) :
  foldl add_pair (Raise e) pairs = Raise e.
Proof. induction pairs as [|pair pairs IH]; [done|]. apply IH. Qed.

Lemma dict_of_pairs_bad (pairs : list (list string))
    (acc : gmap string string) (pair : list string) :
  pair ∈ pairs → length pair ≠ 2 →
  foldl add_pair (Return acc) pairs = Raise ValueError.
Proof.
  intros Hin Hlen. revert acc.
  induction pairs as [|x pairs IH]; intros acc; [by apply elem_of_nil in Hin|].
  apply elem_of_cons in Hin as [<-|Hin]; simpl.
  - destruct pair as [|k [|v [|]]]; try done; apply dict_of_pairs_raised.
  - destruct x as [|k [|v [|]]]; try apply dict_of_pairs_raised. by apply IH.
Qed.

Lemma parse_key_value_pairs_bad (pairs_str pair : string) :
  pair ∈ split "," pairs_str → count_char ":" pair ≠ 1 →
  parse_key_value_pairs pairs_str
  = Raise (ArgumentTypeError
             ("Invalid key:value pair format: " +:+ pairs_str)).
Proof.
  intros Hin Hcount. unfold parse_key_value_pairs, dict_of_pairs.
  rewrite (dict_of_pairs_bad _ _ (split ":" pair)); [done| |].
  - by apply list_elem_of_fmap_2.
  - rewrite split_length. lia.
Qed.

Lemma dict_of_pairs_good (pairs : list (list string))
    (acc : gmap string string) :
  Forall (λ pair, length pair = 2) pairs →
  ∃ d, foldl add_pair (Return acc) pairs = Return d.
Proof.
  intros Hall. revert acc.
  induction Hall as [|x pairs Hx _ IH]; intros acc; simpl; [eauto|].
  destruct x as [|k [|v [|]]]; done.
Qed.

Lemma parse_key_value_pairs_good (pairs_str : string) :
  (∀ pair, pair ∈ split "," pairs_str → count_char ":" pair = 1) →
  ∃ d, parse_key_value_pairs pairs_str = Return d.
Proof.
  intros Hall. unfold parse_key_value_pairs, dict_of_pairs.
  destruct (dict_of_pairs_good (split ":" <$> split "," pairs_str) ∅)
    as [d ->]; [|eauto].
  apply Forall_fmap, Forall_forall. intros pair Hin. simpl.
  rewrite split_length. by rewrite Hall.
Qed.

(** C9.  [parse_key_value_pairs] gives for [a:1,b:2] the mapping of [a]
    to [1] and [b] to [2], raises the format error for [bad], and raises it
    for every text one of whose comma-separated pairs does not have exactly
    one colon. *)
Theorem parse_key_value_pairs_format :
  parse_key_value_pairs "a:1,b:2" = Return {[ "a" := "1"; "b" := "2" ]}
  ∧ parse_key_value_pairs "bad"
    = Raise (ArgumentTypeError "Invalid key:value pair format: bad")
  ∧ ∀ pairs_str pair : string,
      pair ∈ split "," pairs_str → count_char ":" pair ≠ 1 →
      parse_key_value_pairs pairs_str
      = Raise (ArgumentTypeError
                 ("Invalid key:value pair format: " +:+ pairs_str)).
Proof.
  split; [|split].
  - vm_compute. reflexivity.
  - reflexivity.
  - apply parse_key_value_pairs_bad.
Qed.

End Pairs.

(** ** The dispatcher *)

Section Dispatch.

Variable fastly : fastly_module.
Variable main_py logger_py : string.
Variable repr_vars : Namespace → string.

Abbreviation main := (main fastly main_py logger_py repr_vars).
Abbreviation greeted := (greeted repr_vars).
Abbreviation error_line := (error_line main_py logger_py).

Lemma in_os_run {A} (m : M world A) (p : process) (r : result A) (w : world) :
  m (os p) = (r, w) → in_os m p = (r, {| os := w; probe := probe p |}).
Proof. intros H. unfold in_os. by rewrite H. Qed.

Lemma line_number_here (callers : list FrameSummary) (lineno : nat)
    (code : string) :
  line_number (callers ++ [main_at main_py lineno code]) = Return lineno.
Proof. unfold line_number. by rewrite neg_index_last, last_snoc. Qed.

Lemma report_and_raise_logged {A} (callers : list FrameSummary) (lineno : nat)
    (error_message : string) (p : process) :
  utf8_valid (error_line (os p) lineno error_message) = true →
  @report_and_raise main_py logger_py A callers lineno error_message p
  = (Raise (Exception error_message),
     {| os := logged (error_line (os p) lineno error_message)
                (tick 2 (os p));
        probe := probe p |}).
Proof.
  intros Hvalid. unfold Main.report_and_raise.
  rewrite line_number_here. erewrite bind_return by done.
  erewrite bind_return; [done|].
  apply in_os_run. by apply error_handler_entry.
Qed.

Lemma report_and_raise_unlogged {A} (callers : list FrameSummary)
    (lineno : nat) (error_message : string) (p : process) :
  utf8_valid (error_line (os p) lineno error_message) = false →
  @report_and_raise main_py logger_py A callers lineno error_message p
  = (Raise UnicodeEncodeError,
     {| os := tick 2 (open_append LOGFILE (os p)).2; probe := probe p |}).
Proof.
  intros Hvalid. unfold Main.report_and_raise.
  rewrite line_number_here. erewrite bind_return by done.
  erewrite bind_raise; [done|].
  apply in_os_run. by apply error_handler_unencodable.
Qed.



(** Either way it raises an [Exception] and calls no handler. *)
Lemma report_and_raise_raises {A} (callers : list FrameSummary)
    (lineno : nat) (error_message : string) (p : process) :
  ∃ e p', @report_and_raise main_py logger_py A callers lineno error_message p = (Raise e, p')
          ∧ is_Exception e = true ∧ probe p' = probe p.
Proof.
  destruct (utf8_valid (error_line (os p) lineno error_message)) eqn:Hvalid.
  - rewrite report_and_raise_logged by done. eauto.
  - rewrite report_and_raise_unlogged by done. eauto.
Qed.

Lemma main_greets (callers : list FrameSummary) (args : Namespace)
    (p : process) :
  main callers args p
  = match OPERATIONS fastly !! operation args with
    | Some operation_ =>
        try_except
          (let* operation_success :=
             invoke (operation args) operation_
               (prepare_arguments (parameters operation_) args) in
           if negb (truthy operation_success) then
             report_and_raise main_py logger_py callers 62
               ("Operation, " +:+ operation args +:+ ", has failed.")
           else ret tt)
          is_Exception (λ e, raise (ExceptionFrom e))
    | None =>
        report_and_raise main_py logger_py callers 70
          ("Operation, '" +:+ operation args
           +:+ "', does not exist or is unavailable.")
    end (greeted args p).
Proof. unfold Main.main. by erewrite bind_return. Qed.

Lemma prepare_arguments_fold (params : list string) (args : Namespace)
    (acc : gmap string value) (name : string) :
  foldl (λ operation_arguments parameter_name,
           match vars args !! parameter_name with
           | Some (Some v) => <[parameter_name := v]> operation_arguments
           | Some None => operation_arguments
           | None => operation_arguments
           end) acc params !! name
  = match vars args !! name with
    | Some (Some v) => if decide (name ∈ params) then Some v else acc !! name
    | _ => acc !! name
    end.
Proof.
  revert acc. induction params as [|x params IH]; intros acc; simpl.
  - by repeat case_match.
  - rewrite IH. destruct (decide (name = x)) as [->|Hne].
    + destruct (vars args !! x) as [[v|]|] eqn:Hx; [|done..].
      rewrite lookup_insert_eq, (decide_True (P:=x ∈ x :: params)).
      * by case_decide.
      * by left.
    + assert (match vars args !! x with
              | Some (Some v) => <[x:=v]> acc
              | _ => acc
              end !! name = acc !! name) as ->.
      { destruct (vars args !! x) as [[v|]|]; [|done..].
        by rewrite lookup_insert_ne. }
      destruct (vars args !! name) as [[v|]|]; [|done..].
      destruct (decide (name ∈ params)) as [Hin|Hout].
      * rewrite decide_True; [done|]. by right.
      * rewrite decide_False; [done|]. by intros [?|?]%elem_of_cons.
Qed.

Lemma prepare_arguments_lookup (params : list string) (args : Namespace)
    (name : string) (v : value) :
  prepare_arguments params args !! name = Some v
  ↔ name ∈ params ∧ vars args !! name = Some (Some v).
Proof.
  unfold prepare_arguments. rewrite prepare_arguments_fold, lookup_empty.
  destruct (vars args !! name) as [[v'|]|]; [|by split; [|intros [_ ?]]..].
  destruct (decide (name ∈ params)) as [Hin|Hout]; split.
  - by intros [= ->].
  - by intros [_ [= ->]].
  - done.
  - by intros [? _].
Qed.

(** C1.  For a registered operation, [main] calls the handler once, with
    keyword arguments that hold a name exactly when the handler declares it
    and the request has a value other than [None] for it, and that hold
    this value: no name the handler did not declare, and no name whose
    value is [None] or missing.  What [main] does is what the handler does
    on these arguments, once the arguments received are printed: when it
    returns a true value [main] returns in the world it left; when it
    raises [main] raises in the world it left, the exception wrapped in
    an [Exception] if it is one; when it returns a false value [main]
    raises in the world it left with the error reported to the log. *)
Theorem main_passes_declared_present_arguments
    (callers : list FrameSummary) (args : Namespace) (p : process)
    (operation_ : handler) :
  OPERATIONS fastly !! operation args = Some operation_ →
  ∃ operation_arguments : gmap string value,
    probe (main callers args p).2
    = (probe p ++ [(operation args, operation_arguments)])%list
    ∧ (∀ (name : string) (v : value),
         operation_arguments !! name = Some v
         ↔ name ∈ parameters operation_
           ∧ vars args !! name = Some (Some v))
    ∧ (∀ (r : returned) (w : world),
         call operation_ operation_arguments (os (greeted args p))
         = (Return r, w) →
         truthy r = true →
         main callers args p
         = (Return tt, called (operation args) operation_arguments w p))
    ∧ (∀ (e : exn) (w : world),
         call operation_ operation_arguments (os (greeted args p))
         = (Raise e, w) →
         main callers args p
         = (Raise (if is_Exception e then ExceptionFrom e else e),
            called (operation args) operation_arguments w p))
    ∧ (∀ (r : returned) (w : world),
         call operation_ operation_arguments (os (greeted args p))
         = (Return r, w) →
         truthy r = false →
         ∃ e : exn,
           main callers args p
           = (Raise (ExceptionFrom e),
              called (operation args) operation_arguments
                (if utf8_valid
                      (error_line w 62
                         ("Operation, " +:+ operation args
                          +:+ ", has failed."))
                 then logged
                        (error_line w 62
                           ("Operation, " +:+ operation args
                            +:+ ", has failed."))
                        (tick 2 w)
                 else tick 2 (open_append LOGFILE w).2)
                p)).
Proof.
  intros Hop. exists (prepare_arguments (parameters operation_) args).
  split; [|split; [apply prepare_arguments_lookup|]].
  { rewrite main_greets, Hop. unfold try_except, bind, invoke.
    destruct (call operation_ _ (os (greeted args p))) as [[r|e] w1].
    - destruct (negb (truthy r)); [|done].
      edestruct (@report_and_raise_raises unit callers 62)
        as (e & p' & Hraise & Hexc & Hprobe).
      rewrite Hraise, Hexc. simpl. by rewrite Hprobe.
    - by destruct (is_Exception e). }
  split; [|split].
  - intros r w Hcall Hr. rewrite main_greets, Hop.
    unfold try_except, bind, invoke. by rewrite Hcall, Hr.
  - intros e w Hcall. rewrite main_greets, Hop.
    unfold try_except, bind, invoke. rewrite Hcall.
    by destruct (is_Exception e).
  - intros r w Hcall Hr. rewrite main_greets, Hop.
    unfold try_except, bind, invoke. rewrite Hcall, Hr.
    change (negb false) with true. cbv iota.
    destruct (utf8_valid
                (error_line w 62
                   ("Operation, " +:+ operation args +:+ ", has failed.")))
      eqn:Hvalid.
    + rewrite report_and_raise_logged by done. simpl. eauto.
    + rewrite report_and_raise_unlogged by done. simpl. eauto.
Qed.



End Dispatch.

(** ** The properties at work *)

Import Samples.

Example strip_directories_both_slashes :
  strip_directories "/home/ops/jobs\nightly.py" = Return "nightly.py"
  ∧ strip_directories "C:\jobs\bin/run.py" = Return "run.py"
  ∧ strip_directories "run.py" = Return "run.py".
Proof. by vm_compute. Qed.

Example log_line_of_a_script :
  fs (write_to_logfile logger_path [script_frame 7] "backup done"
        (world_of ∅)).2 !! LOGFILE
  = Some (chr LF +:+ "[03/09/2024 03:04:05 PM UTC, nightly.py: 7] backup done ").
Proof. vm_compute. reflexivity. Qed.

Example csv_record_quotes :
  csv_record ["id"; "a,b"; ""] = "id," +:+ chr DQUOTE +:+ "a,b" +:+ chr DQUOTE
                                 +:+ "," +:+ CRLF
  ∧ csv_record [""] = chr DQUOTE +:+ chr DQUOTE +:+ CRLF
  ∧ csv_record [] = CRLF.
Proof. by vm_compute. Qed.

Example utf8_valid_samples :
  utf8_valid "plain" = true
  ∧ utf8_valid (String (ascii_of_nat 195) (chr (ascii_of_nat 169))) = true
  ∧ utf8_valid (String (ascii_of_nat 226) (String (ascii_of_nat 130)
                  (chr (ascii_of_nat 172)))) = true
  ∧ utf8_valid (String (ascii_of_nat 240) (String (ascii_of_nat 159)
                  (String (ascii_of_nat 152) (chr (ascii_of_nat 128)))))
    = true
  ∧ utf8_valid (String (ascii_of_nat 192) (chr (ascii_of_nat 128))) = false
  ∧ utf8_valid (chr (ascii_of_nat 128)) = false
  ∧ utf8_valid (String (ascii_of_nat 244) (String (ascii_of_nat 144)
                  (String (ascii_of_nat 128) (chr (ascii_of_nat 128)))))
    = false
  ∧ utf8_valid surrogate = false.
Proof. by vm_compute. Qed.

Example strftime_midnight :
  strftime_at "%I:%M:%S %p %Z"
    {| tm_year := 2025; tm_mon := 12; tm_mday := 31; tm_hour := 0;
       tm_min := 7; tm_sec := 59; tm_zone := "CET" |}
  = "12:07:59 AM CET".
Proof. by vm_compute. Qed.

Lemma main_passes_declared_present_arguments_witness :
  ∃ operation_arguments : gmap string value,
    probe (main (fastly_of noting) main_path logger_path no_repr
             [entry_frame] (request "backup_acl")
             (start_of (world_of ∅))).2
    = (probe (start_of (world_of ∅))
       ++ [(operation (request "backup_acl"), operation_arguments)])%list
    ∧ (∀ (name : string) (v : value),
         operation_arguments !! name = Some v
         ↔ name ∈ parameters noting
           ∧ vars (request "backup_acl") !! name = Some (Some v))
    ∧ (∀ (r : returned) (w : world),
         call noting operation_arguments
           (os (greeted no_repr (request "backup_acl")
                  (start_of (world_of ∅))))
         = (Return r, w) →
         truthy r = true →
         main (fastly_of noting) main_path logger_path no_repr
           [entry_frame] (request "backup_acl") (start_of (world_of ∅))
         = (Return tt,
            called (operation (request "backup_acl")) operation_arguments w
              (start_of (world_of ∅))))
    ∧ (∀ (e : exn) (w : world),
         call noting operation_arguments
           (os (greeted no_repr (request "backup_acl")
                  (start_of (world_of ∅))))
         = (Raise e, w) →
         main (fastly_of noting) main_path logger_path no_repr
           [entry_frame] (request "backup_acl") (start_of (world_of ∅))
         = (Raise (if is_Exception e then ExceptionFrom e else e),
            called (operation (request "backup_acl")) operation_arguments w
              (start_of (world_of ∅))))
    ∧ (∀ (r : returned) (w : world),
         call noting operation_arguments
           (os (greeted no_repr (request "backup_acl")
                  (start_of (world_of ∅))))
         = (Return r, w) →
         truthy r = false →
         ∃ e : exn,
           main (fastly_of noting) main_path logger_path no_repr
             [entry_frame] (request "backup_acl") (start_of (world_of ∅))
           = (Raise (ExceptionFrom e),
              called (operation (request "backup_acl")) operation_arguments
                (if utf8_valid
                      (error_line main_path logger_path w 62
                         ("Operation, " +:+ operation (request "backup_acl")
                          +:+ ", has failed."))
                 then logged
                        (error_line main_path logger_path w 62
                           ("Operation, "
                            +:+ operation (request "backup_acl")
                            +:+ ", has failed."))
                        (tick 2 w)
                 else tick 2 (open_append LOGFILE w).2)
                (start_of (world_of ∅)))).
Proof.
  apply (main_passes_declared_present_arguments (fastly_of noting)).
  reflexivity.
Defined.

(** The handler is run, on the two names that are declared and present:
    its note is in what was printed. *)
Example main_runs_the_handler :
  main (fastly_of noting) main_path logger_path no_repr [entry_frame]
    (request "backup_acl") (start_of (world_of ∅))
  = (Return tt,
     {| os := printed "called with api_key,ips"
                (printed "Received arguments: {}" (world_of ∅));
        probe := [("backup_acl",
                   {[ "api_key" := VStr "k3y";
                      "ips" := VList ["10.0.0.1"] ]})] |}).
Proof. vm_compute. reflexivity. Qed.

Lemma write_to_logfile_start_script_prefixed_witness :
  write_to_logfile logger_path ([] ++ [script_frame 7]) START_SCRIPT
    (world_of ∅)
  = (Return tt,
     logged (entry (world_of ∅)
               (base_name (frame_filename (script_frame 7)))
               (frame_lineno (script_frame 7)) START_SCRIPT)
       (tick 2 (world_of ∅)))
  ∧ entry (world_of ∅) (base_name (frame_filename (script_frame 7)))
      (frame_lineno (script_frame 7)) START_SCRIPT ≠ START_SCRIPT.
Proof.
  apply write_to_logfile_start_script_prefixed. vm_compute. reflexivity.
Defined.

(** The marker as the log has it after [write_line]. *)
Example start_script_in_log :
  fs (write_to_logfile logger_path [script_frame 7] START_SCRIPT
        (world_of ∅)).2 !! LOGFILE
  = Some (chr LF
          +:+ "[03/09/2024 03:04:05 PM UTC, nightly.py: 7] "
          +:+ "-------------/ Start of Script \-------------- ").
Proof. vm_compute. reflexivity. Qed.



Lemma last_line_of_file_final_line_witness :
  last_line_of_file "notes.txt"
    (world_of {[ "notes.txt" := "ab" +:+ String LF ("cd" +:+ chr LF) ]})
  = (decode ("cd" +:+ chr LF),
     world_of {[ "notes.txt" := "ab" +:+ String LF ("cd" +:+ chr LF) ]})
  ∧ last_line_of_file "notes.txt"
      (world_of {[ "notes.txt" := "ab" +:+ chr "c" ]})
    = (decode ("ab" +:+ chr "c"),
       world_of {[ "notes.txt" := "ab" +:+ chr "c" ]})
  ∧ last_line_of_file "notes.txt" (world_of {[ "notes.txt" := "" ]})
    = (Return "", world_of {[ "notes.txt" := "" ]}).
Proof.
  split; [|split].
  - apply (proj1 (last_line_of_file_final_line "notes.txt" _) "ab" "cd" LF);
      reflexivity.
  - apply (proj1 (proj2 (last_line_of_file_final_line "notes.txt" _))
             "ab" "c"%char);
      reflexivity.
  - apply (proj2 (proj2 (last_line_of_file_final_line "notes.txt" _))).
    reflexivity.
Defined.

(** Against C4 as stated: on a file of two lines that ends with a line
    feed the result keeps the line feed of the final line. *)
Lemma last_line_of_file_keeps_line_feed :
  (last_line_of_file "notes.txt"
     (world_of {[ "notes.txt" := "a" +:+ chr LF +:+ "b" +:+ chr LF ]})).1
  = Return ("b" +:+ chr LF)
  ∧ (last_line_of_file "notes.txt"
       (world_of {[ "notes.txt" := "a" +:+ chr LF +:+ "b" +:+ chr LF ]})).1
    ≠ Return "b".
Proof. split; [vm_compute; reflexivity|vm_compute; discriminate]. Qed.

Lemma log_line_names_caller_of_write_to_logfile_witness :
  write_to_logfile logger_path ([entry_frame] ++ [script_frame 12])
    "backup done" (world_of ∅)
  = (Return tt,
     logged (entry (world_of ∅)
               (base_name (frame_filename (script_frame 12)))
               (frame_lineno (script_frame 12)) "backup done")
       (tick 2 (world_of ∅)))
  ∧ error_handler logger_path ([entry_frame] ++ [script_frame 12])
      "no such service" 12 (world_of ∅)
    = (Return (error_format (base_name (frame_filename (script_frame 12)))
                 12 "no such service"),
       logged (entry (world_of ∅) (base_name logger_path) 55
                 (error_format
                    (base_name (frame_filename (script_frame 12))) 12
                    "no such service"))
         (tick 2 (world_of ∅)))
  ∧ (∃ dir, frame_filename (script_frame 12)
            = dir +:+ base_name (frame_filename (script_frame 12)))
  ∧ has_char "/" (base_name (frame_filename (script_frame 12))) = false
  ∧ has_char BACKSLASH (base_name (frame_filename (script_frame 12)))
    = false
  ∧ entry (world_of ∅) (base_name (frame_filename (script_frame 12)))
      (frame_lineno (script_frame 12)) "backup done"
    = "[03/09/2024 03:04:05 PM UTC, nightly.py: 12] backup done "
  ∧ entry (world_of ∅) (base_name logger_path) 55
      (error_format (base_name (frame_filename (script_frame 12))) 12
         "no such service")
    = "[03/09/2024 03:04:05 PM UTC, logger.py: 55] "
      +:+ "  Error [File: nightly.py Line: 12] - no such service "
  ∧ error_format (base_name (frame_filename (script_frame 12))) 12
      "no such service"
    = "  Error [File: nightly.py Line: 12] - no such service".
Proof.
  apply (log_line_names_caller_of_write_to_logfile logger_path [entry_frame]
           (script_frame 12) "backup done" "no such service" 12
           (world_of ∅));
    [discriminate|vm_compute; reflexivity..].
Defined.

(** Against C5 as stated: the line that [record_error] logs for a caller
    in [nightly.py] at line 12 has the logger's file and line 55 in front,
    not the caller's. *)
Lemma error_handler_line_names_logger :
  fs (error_handler logger_path [entry_frame; script_frame 12]
        "no such service" 12 (world_of ∅)).2 !! LOGFILE
  = Some (String LF
            (entry (world_of ∅) "logger.py" 55
               "  Error [File: nightly.py Line: 12] - no such service"))
  ∧ fs (error_handler logger_path [entry_frame; script_frame 12]
          "no such service" 12 (world_of ∅)).2 !! LOGFILE
    ≠ Some (String LF
              (entry (world_of ∅) "nightly.py" 12
                 "  Error [File: nightly.py Line: 12] - no such service")).
Proof. split; [vm_compute; reflexivity|vm_compute; discriminate]. Qed.




Lemma write_to_file_unencodable_row_witness :
  let w := world_closing one_line_log {[ "." := IsADirectory ]} in
  write_to_file logger_path [script_frame 20] "out.csv" ["id"; surrogate] w
  = (Return tt,
     appended "out.csv" ("U,n,i,c,o,d,e,E,n,c,o,d,e,E,r,r,o,r" +:+ CRLF)
       (logged (entry w "logger.py" 85 (notice "out.csv")) (tick 2 w)))
  ∧ write_to_file logger_path [script_frame 20] "." ["id"; surrogate] w
    = (Raise (IsADirectoryError "."),
       logged (entry w "logger.py" 85 (notice ".")) (tick 2 w)).
Proof.
  intros w.
  destruct (write_to_file_unencodable_row logger_path [script_frame 20]
              "out.csv" ["id"; surrogate] w
              (logged (entry w "logger.py" 85 (notice "out.csv")) (tick 2 w)))
    as [Hopens _]; [vm_compute; reflexivity..|].
  destruct (write_to_file_unencodable_row logger_path [script_frame 20]
              "." ["id"; surrogate] w
              (logged (entry w "logger.py" 85 (notice ".")) (tick 2 w)))
    as [_ Hcloses]; [vm_compute; reflexivity..|].
  split; [apply Hopens|apply (Hcloses IsADirectory)]; vm_compute; reflexivity.
Defined.

Lemma parse_key_value_pairs_format_witness :
  parse_key_value_pairs "a:1,b:2:3"
  = Raise (ArgumentTypeError "Invalid key:value pair format: a:1,b:2:3").
Proof.
  apply (proj2 (proj2 parse_key_value_pairs_format) "a:1,b:2:3" "b:2:3").
  - vm_compute. apply list_elem_of_In. right. left. reflexivity.
  - discriminate.
Defined.

Lemma write_to_file_requires_log_witness :
  write_to_file logger_path [script_frame 3] "out.csv" ["a"; "b"]
    (world_of ∅)
  = (Raise (FileNotFoundError LOGFILE), world_of ∅).
Proof. apply write_to_file_requires_log. reflexivity. Defined.

(** * Further properties *)

(** ** The dispatcher, the other outcomes *)

Section Outcomes.

Variable fastly : fastly_module.
Variable main_py logger_py : string.
Variable repr_vars : Namespace → string.

Abbreviation main := (main fastly main_py logger_py repr_vars).
Abbreviation greeted := (greeted repr_vars).

(** X1.  [main] returns normally in exactly one case: the operation is
    registered, its handler returned, and what it returned is true in the
    sense of [not].  The handler was then called once, with the prepared
    arguments, and the world is as the handler left it. *)
Theorem main_returns_exactly_on_success
    (callers : list FrameSummary) (args : Namespace) (p p' : process) :
  main callers args p = (Return tt, p')
  ↔ ∃ (operation_ : handler) (operation_success : returned),
      OPERATIONS fastly !! operation args = Some operation_
      ∧ call operation_ (prepare_arguments (parameters operation_) args)
          (os (greeted args p)) = (Return operation_success, os p')
      ∧ truthy operation_success = true
      ∧ probe p'
        = (probe p
           ++ [(operation args,
                prepare_arguments (parameters operation_) args)])%list.
Proof.
  rewrite main_greets. split.
  - destruct (OPERATIONS fastly !! operation args) as [operation_|] eqn:Hop.
    + unfold try_except, bind, invoke.
      destruct (call operation_ _ (os (greeted args p))) as [[r|e] w] eqn:Hcall.
      * destruct (truthy r) eqn:Hr; simpl.
        -- intros [= <-]. by exists operation_, r.
        -- edestruct (@report_and_raise_raises main_py logger_py unit
                        callers 62) as (e & p1 & -> & -> & _).
           done.
      * by destruct (is_Exception e).
    + edestruct (@report_and_raise_raises main_py logger_py unit callers 70)
        as (e & p1 & -> & _ & _).
      done.
  - intros (operation_ & r & -> & Hcall & Hr & Hprobe).
    unfold try_except, bind, invoke. rewrite Hcall, Hr. simpl.
    destruct p'. simpl in *. by rewrite Hprobe.
Qed.

(** X2.  When the handler of a registered operation raises, [main] logs
    nothing: an exception that [except Exception] catches comes out wrapped
    in a new [Exception], any other (an exit, an interrupt) comes out as it
    is, and the world is as the handler left it. *)
Theorem main_handler_raises
    (callers : list FrameSummary) (args : Namespace) (p : process)
    (operation_ : handler) (e : exn) (w : world) :
  OPERATIONS fastly !! operation args = Some operation_ →
  call operation_ (prepare_arguments (parameters operation_) args)
    (os (greeted args p)) = (Raise e, w) →
  main callers args p
  = (Raise (if is_Exception e then ExceptionFrom e else e),
     called (operation args)
       (prepare_arguments (parameters operation_) args) w p).
Proof.
  intros Hop Hcall. rewrite main_greets, Hop.
  unfold try_except, bind, invoke. rewrite Hcall.
  by destruct (is_Exception e).
Qed.

End Outcomes.

(** ** Splitting and joining *)

Section Joining.

Lemma split_nonempty (sep : ascii) (s : string) : split sep s ≠ [].
Proof.
  destruct s as [|c s]; simpl; [done|].
  destruct (Ascii.eqb c sep); [done|]. by destruct (split sep s).
Qed.

Lemma split_app_sep (sep : ascii) (a b : string) :
  has_char sep a = false →
  split sep (a +:+ String sep b) = a :: split sep b.
Proof.
  induction a as [|c a IH]; intros Ha; simpl in *.
  - by rewrite Ascii.eqb_refl.
  - apply orb_false_elim in Ha as [-> Ha]. by rewrite IH.
Qed.

(** Splitting what was joined gives the parts back. *)
Lemma split_concat (sep : ascii) (parts : list string) :
  parts ≠ [] →
  Forall (λ part, has_char sep part = false) parts →
  split sep (String.concat (chr sep) parts) = parts.
Proof.
  intros Hne Hall. induction Hall as [|x [|y rest] Hx _ IH]; [done| |].
  - simpl. by apply split_without.
  - change (String.concat (chr sep) (x :: y :: rest))
      with (x +:+ String sep (String.concat (chr sep) (y :: rest))).
    rewrite split_app_sep by done. by rewrite IH.
Qed.

End Joining.

(** ** Key and value pairs, both ways *)

Section PairsBothWays.

Lemma split_pair_text (kv : string * string) :
  plain kv.1 = true → plain kv.2 = true →
  split ":" (pair_text kv) = [kv.1; kv.2].
Proof.
  unfold plain, pair_text. intros [_ H1%negb_true_iff]%andb_true_iff
                                  [_ H2%negb_true_iff]%andb_true_iff.
  change (kv.1 +:+ ":" +:+ kv.2) with (kv.1 +:+ String ":" kv.2).
  rewrite split_app_sep by done. by rewrite split_without.
Qed.

Lemma pair_text_no_comma (kv : string * string) :
  plain kv.1 = true → plain kv.2 = true → has_char "," (pair_text kv) = false.
Proof.
  unfold plain, pair_text. intros [H1%negb_true_iff _]%andb_true_iff
                                  [H2%negb_true_iff _]%andb_true_iff.
  by rewrite !has_char_app, H1, H2.
Qed.

Lemma dict_of_pairs_inserts (kvs : list (string * string))
    (acc : gmap string string) :
  foldl add_pair (Return acc) ((λ kv, [kv.1; kv.2]) <$> kvs)
  = Return (list_to_map (reverse kvs) ∪ acc).
Proof.
  revert acc. induction kvs as [|[k v] kvs IH]; intros acc; simpl.
  - by rewrite (left_id_L ∅ (∪)).
  - rewrite IH, reverse_cons, list_to_map_app. simpl.
    rewrite insert_empty, <-(assoc_L (∪)).
    by rewrite <-insert_union_singleton_l.
Qed.

(** X3.  There and back: the text of one or more pairs, joined with commas,
    each a key, a colon and a value without comma or colon, parses to the
    mapping of the keys to the values; of two pairs with the same key the
    later one counts. *)
Theorem parse_key_value_pairs_of_pairs (kvs : list (string * string)) :
  kvs ≠ [] →
  Forall (λ kv, plain kv.1 = true ∧ plain kv.2 = true) kvs →
  parse_key_value_pairs (String.concat "," (pair_text <$> kvs))
  = Return (list_to_map (reverse kvs)).
Proof.
  intros Hne Hall. unfold parse_key_value_pairs, dict_of_pairs.
  rewrite (split_concat ",").
  - rewrite <-list_fmap_compose.
    rewrite (Forall_fmap_ext_1 (split ":" ∘ pair_text) (λ kv, [kv.1; kv.2])).
    + rewrite dict_of_pairs_inserts. by rewrite (right_id_L ∅ (∪)).
    + eapply Forall_impl; [done|]. intros kv [??]. by apply split_pair_text.
  - by destruct kvs.
  - apply Forall_fmap. eapply Forall_impl; [done|].
    intros kv [??]. by apply pair_text_no_comma.
Qed.

(** X4.  [parse_key_value_pairs] returns a mapping exactly for the texts
    all of whose comma-separated pairs have one colon each; for every other
    text it raises. *)
Theorem parse_key_value_pairs_returns_iff (pairs_str : string) :
  (∃ d, parse_key_value_pairs pairs_str = Return d)
  ↔ ∀ pair, pair ∈ split "," pairs_str → count_char ":" pair = 1.
Proof.
  split; [|apply parse_key_value_pairs_good].
  intros [d Hd] pair Hin.
  destruct (decide (count_char ":" pair = 1)) as [|Hne]; [done|].
  by rewrite (parse_key_value_pairs_bad pairs_str pair) in Hd.
Qed.

End PairsBothWays.

(** ** Base names *)

Section BaseNames.

Lemma after_last_without (sep : ascii) (s : string) :
  has_char sep s = false → after_last sep s = s.
Proof.
  destruct s as [|c s]; intros H; simpl in *; [done|].
  apply orb_false_elim in H as [-> ->]. done.
Qed.

Lemma after_last_joined (sep : ascii) (dir name : string) :
  has_char sep name = false →
  after_last sep (dir +:+ String sep name) = name.
Proof.
  intros Hname. induction dir as [|c dir IH]; simpl.
  - by rewrite Hname, Ascii.eqb_refl.
  - rewrite has_char_app. simpl. rewrite Ascii.eqb_refl, orb_true_r. done.
Qed.

(** X5.  The two splits of lines 34 and 35 (and 51 and 52, 62 and 63, 70
    and 71) give the base name: a name with neither slash is kept as it is,
    and is what is left of it behind a directory, under either slash. *)
Theorem strip_directories_name (dir name : string) :
  slashless name = true →
  strip_directories name = Return name
  ∧ strip_directories (dir +:+ "/" +:+ name) = Return name
  ∧ strip_directories (dir +:+ chr BACKSLASH +:+ name) = Return name.
Proof.
  unfold slashless. intros [H1%negb_true_iff H2%negb_true_iff]%andb_true_iff.
  rewrite !strip_directories_base_name. unfold base_name.
  split; [|split]; f_equal.
  - rewrite (after_last_without "/") by done.
    by rewrite after_last_without.
  - change (dir +:+ "/" +:+ name) with (dir +:+ String "/" name).
    rewrite after_last_joined by done. by rewrite after_last_without.
  - change (dir +:+ chr BACKSLASH +:+ name)
      with (dir +:+ String BACKSLASH name).
    destruct (after_last_suffix "/" (dir +:+ String BACKSLASH name))
      as [d Hd].
    assert (∃ d', after_last "/" (dir +:+ String BACKSLASH name)
                  = d' +:+ String BACKSLASH name) as [d' ->].
    { clear Hd d. induction dir as [|c dir [d' IH]]; simpl.
      - rewrite H1. exists "". done.
      - rewrite has_char_app. simpl. rewrite H1, orb_false_r.
        destruct (has_char "/" dir) eqn:Hdir; simpl.
        + by exists d'.
        + destruct (Ascii.eqb c "/"); [by exists dir|].
          by exists (String c dir). }
    by apply after_last_joined.
Qed.

(** X6.  The two splits never raise, and doing them on their result
    changes nothing more. *)
Theorem strip_directories_idempotent (path : string) :
  ∃ name, strip_directories path = Return name
          ∧ strip_directories name = Return name.
Proof.
  exists (base_name path). rewrite !strip_directories_base_name.
  split; [done|]. f_equal.
  destruct (base_name_stripped path) as (_ & H1 & H2).
  unfold base_name at 1. rewrite (after_last_without "/") by done.
  by rewrite after_last_without.
Qed.

End BaseNames.

(** ** The last line, for every file *)

Section EveryFile.

(** What is read of a file that exists: its end, from behind the last
    line feed that is not its last byte. *)
Lemma last_line_of_file_end (path data : string) (w : world) :
  fs w !! path = Some data →
  ∃ before tail : string,
    data = before +:+ tail
    ∧ one_line tail
    ∧ (before = "" ∨ ∃ before', before = before' +:+ chr LF)
    ∧ last_line_of_file path w = (decode tail, w).
Proof.
  intros Hfile.
  destruct (file_shapes data)
    as [->|[(b & x & -> & Hb)|(a & b & x & -> & Hb)]].
  - exists "", "". split; [done|]. split; [by left|]. split; [by left|].
    by apply last_line_of_file_empty.
  - exists "", (b +:+ chr x). split; [done|].
    split; [right; by exists b, x|]. split; [by left|].
    by apply (last_line_of_file_single path w b x).
  - exists (a +:+ chr LF), (b +:+ chr x).
    split; [by rewrite str_app_assoc|].
    split; [right; by exists b, x|]. split; [right; by exists a|].
    by apply (last_line_of_file_multi path w a b x).
Qed.

(** What is returned is one line. *)
Lemma last_line_of_file_one_line (path tail : string) (w w' : world) :
  last_line_of_file path w = (Return tail, w') → one_line tail.
Proof.
  intros Hlast.
  destruct (fs w !! path) as [data|] eqn:Hdata.
  - destruct (last_line_of_file_end path data w Hdata)
      as (before & t & _ & Ht & _ & Hlast').
    rewrite Hlast' in Hlast. unfold decode in Hlast.
    destruct (utf8_valid t); [|done]. by injection Hlast as <- _.
  - unfold last_line_of_file, bind, open_rb in Hlast.
    by rewrite Hdata in Hlast.
Qed.

(** X7.  [last_line_of_file] for every file and every content: it never
    changes anything; without the file it raises [FileNotFoundError]; with
    it, what it reads is the end of the content, starting at the beginning
    or right behind a line feed and holding no line feed but, at most, as
    its last byte; it returns that text when it is UTF-8 and raises
    [UnicodeDecodeError] when it is not. *)
Theorem last_line_of_file_outcomes (path : string) (w : world) :
  match fs w !! path with
  | None => last_line_of_file path w = (Raise (FileNotFoundError path), w)
  | Some data =>
      ∃ before tail : string,
        data = before +:+ tail
        ∧ one_line tail
        ∧ (before = "" ∨ ∃ before', before = before' +:+ chr LF)
        ∧ last_line_of_file path w
          = (if utf8_valid tail then Return tail
             else Raise UnicodeDecodeError, w)
  end.
Proof.
  destruct (fs w !! path) as [data|] eqn:Hdata.
  - destruct (last_line_of_file_end path data w Hdata)
      as (before & tail & H1 & H2 & H3 & H4).
    by exists before, tail.
  - unfold last_line_of_file, bind, open_rb. by rewrite Hdata.
Qed.

End EveryFile.

(** ** Lines of the log read back *)

Section ReadBack.

Variable logger_py : string.




End ReadBack.

(** ** A file name with a line feed *)

Section LineFeedName.

Lemma contains_splits (sub s : string) :
  contains sub s = true → ∃ before after, s = before +:+ sub +:+ after.
Proof.
  assert (∀ a b, String.prefix a b = true → ∃ after, b = a +:+ after)
    as Hprefix.
  { induction a as [|c a IH]; intros b Hp; [by exists b|].
    destruct b as [|d b]; simpl in Hp; [done|].
    destruct (ascii_dec c d) as [->|]; [|done].
    destruct (IH b Hp) as [after ->]. by exists after. }
  induction s as [|c s IH]; intros Hin.
  - destruct sub; [by exists "", ""|done].
  - unfold contains in Hin; fold contains in Hin.
    apply orb_prop in Hin as [Hp|Hin].
    + destruct (Hprefix sub (String c s) Hp) as [after ->].
      by exists "", after.
    + destruct (IH Hin) as (before & after & ->).
      by exists (String c before), after.
Qed.

(** A line feed with something behind it is not in a line. *)
Lemma one_line_no_inner_lf (u v : string) (y : ascii) :
  ¬ one_line (u +:+ String LF (String y v)).
Proof.
  intros [Hempty|(b & x & Heq & Hb)].
  - by destruct u.
  - revert b Heq Hb. induction u as [|c u IH]; intros b Heq Hb.
    + destruct b as [|d b]; simpl in *; [by destruct v|].
      injection Heq as <- _. done.
    + destruct b as [|d b]; simpl in *.
      * injection Heq as _ Heq. by destruct u.
      * injection Heq as <- Heq. apply orb_false_elim in Hb as [_ Hb].
        by apply (IH b).
Qed.

Lemma has_char_splits (c : ascii) (s : string) :
  has_char c s = true → ∃ a b, s = a +:+ String c b.
Proof.
  induction s as [|d s IH]; simpl; [done|].
  destruct (Ascii.eqb d c) eqn:Hd.
  - apply Ascii.eqb_eq in Hd as ->. by exists "", s.
  - simpl. intros (a & b & ->)%IH. by exists (String d a), b.
Qed.

(** X10.  For a file name with a line feed in it the test of line 84 never
    finds the notice: whatever the log holds, the last line read of it does
    not contain the notice, so [write_to_file] logs it on every call. *)
Theorem notice_with_line_feed_never_found (filename tail : string)
    (w : world) :
  has_char LF filename = true →
  last_line_of_file LOGFILE w = (Return tail, w) →
  contains (notice filename) tail = false.
Proof.
  intros Hname Hlast.
  destruct (contains (notice filename) tail) eqn:Hin; [exfalso|done].
  pose proof (last_line_of_file_one_line _ _ _ _ Hlast) as Hline.
  destruct (contains_splits _ _ Hin) as (before & after & ->).
  destruct (has_char_splits LF filename Hname) as (a & b & ->).
  destruct (b +:+ chr DQUOTE +:+ after) as [|y v] eqn:Hrest;
    [by destruct b|].
  apply (one_line_no_inner_lf
           (before +:+ "Writing Data to: " +:+ chr DQUOTE +:+ a) v y).
  rewrite <-Hrest. unfold notice in Hline.
  repeat (rewrite str_app_assoc in Hline || rewrite str_app_cons in Hline).
  repeat (rewrite str_app_assoc || rewrite str_app_cons).
  exact Hline.
Qed.

End LineFeedName.

(** ** A blank line in between *)

Section BlankLine.

Variable logger_py : string.



End BlankLine.

(** ** What a run never does to the files *)

Section Always.

Variable R : world → world → Prop.
Hypothesis R_refl : ∀ w, R w w.
Hypothesis R_trans : ∀ w1 w2 w3, R w1 w2 → R w2 w3 → R w1 w3.
Hypothesis R_fs : ∀ w w', fs w' = fs w → R w w'.

Context {A B : Type}.

Lemma always_bind (m : M world A) (k : A → M world B) :
  always R m → (∀ a, always R (k a)) → always R (bind m k).
Proof.
  intros Hm Hk w. unfold bind. specialize (Hm w).
  destruct (m w) as [[a|e] w1]; [|done].
  eapply R_trans; [done|apply Hk].
Qed.

Lemma always_try (m : M world A) (catches : exn → bool)
    (h : exn → M world A) :
  always R m → (∀ e, always R (h e)) → always R (try_except m catches h).
Proof.
  intros Hm Hh w. unfold try_except. specialize (Hm w).
  destruct (m w) as [[a|e] w1]; [done|].
  destruct (catches e); [|done].
  eapply R_trans; [done|apply Hh].
Qed.

Lemma always_ret (a : A) : always R (ret a).
Proof. intros w. apply R_refl. Qed.

Lemma always_raise (e : exn) : always R (raise (A:=A) e).
Proof. intros w. apply R_refl. Qed.

Lemma always_lift (r : result A) : always R (lift_result r).
Proof. intros w. apply R_refl. Qed.

Lemma always_print (line : string) : always R (print line).
Proof. intros w. by apply R_fs. Qed.

Lemma always_localtime : always R localtime.
Proof. intros w. by apply R_fs. Qed.

Lemma always_last_line (path : string) : always R (last_line_of_file path).
Proof.
  intros w. unfold last_line_of_file, bind, open_rb, lift_result.
  destruct (fs w !! path); simpl; [|apply R_refl].
  repeat case_match; apply R_refl.
Qed.

End Always.

Section Relations.

Lemma str_app_nil_r (s : string) : s +:+ "" = s.
Proof. induction s as [|c s IH]; [done|]. simpl. by rewrite IH. Qed.

Lemma grown_fs (w w' : world) : fs w' = fs w → grown w w'.
Proof.
  intros Hfs path old H. exists "". by rewrite str_app_nil_r, Hfs.
Qed.

Lemma grown_refl (w : world) : grown w w.
Proof. by apply grown_fs. Qed.

Lemma grown_trans (w1 w2 w3 : world) :
  grown w1 w2 → grown w2 w3 → grown w1 w3.
Proof.
  intros H12 H23 path old H1.
  destruct (H12 path old H1) as [more H2].
  destruct (H23 path _ H2) as [more' H3].
  exists (more +:+ more'). by rewrite <-str_app_assoc.
Qed.

Lemma same_but_log_fs (w w' : world) : fs w' = fs w → same_but_log w w'.
Proof. intros Hfs path _. by rewrite Hfs. Qed.

Lemma same_but_log_refl (w : world) : same_but_log w w.
Proof. by apply same_but_log_fs. Qed.

Lemma same_but_log_trans (w1 w2 w3 : world) :
  same_but_log w1 w2 → same_but_log w2 w3 → same_but_log w1 w3.
Proof. intros H12 H23 path Hpath. by rewrite H23, H12. Qed.

Lemma grown_open_append (path : string) : always grown (open_append path).
Proof.
  intros w p old Hp. unfold open_append.
  destruct (open_error w path); simpl.
  { exists "". by rewrite str_app_nil_r. }
  destruct (fs w !! path) eqn:Hpath.
  - exists "". by rewrite str_app_nil_r.
  - exists "". rewrite str_app_nil_r. simpl.
    rewrite lookup_insert_ne; [done|]. by intros ->; rewrite Hpath in Hp.
Qed.

Lemma grown_write (path text : string) : always grown (write path text).
Proof.
  intros w p old Hp. unfold write.
  destruct (utf8_valid text); simpl.
  - destruct (decide (path = p)) as [->|Hne].
    + exists text. by rewrite lookup_insert_eq, Hp.
    + exists "". by rewrite str_app_nil_r, lookup_insert_ne.
  - exists "". by rewrite str_app_nil_r.
Qed.

Lemma same_but_log_open_log : always same_but_log (open_append LOGFILE).
Proof.
  intros w p Hp. unfold open_append. simpl.
  destruct (fs w !! LOGFILE); [done|]. simpl. by rewrite lookup_insert_ne.
Qed.

Lemma same_but_log_write_log (text : string) :
  always same_but_log (write LOGFILE text).
Proof.
  intros w p Hp. unfold write.
  destruct (utf8_valid text); simpl; [|done]. by rewrite lookup_insert_ne.
Qed.

End Relations.

Create HintDb files.

#[local] Hint Resolve grown_refl grown_trans grown_fs same_but_log_refl
  same_but_log_trans same_but_log_fs : files.
#[local] Hint Resolve always_ret always_raise always_lift always_print
  always_localtime always_last_line grown_open_append grown_write
  same_but_log_open_log same_but_log_write_log : files.

(** Goes through a computation step by step. *)
Ltac always_steps :=
  repeat first
    [ progress intros
    | solve [eauto with files]
    | match goal with
      | |- always _ (if ?b then _ else _) => destruct b
      end
    | apply always_bind; [solve [eauto with files]..| |]
    | apply always_try; [solve [eauto with files]| |] ].

Section LoggerFiles.

Variable logger_py : string.

Lemma grown_write_to_logfile callers log_text :
  always grown (write_to_logfile logger_py callers log_text).
Proof. unfold write_to_logfile, now_date, now_time, strftime. always_steps. Qed.

Lemma same_but_log_write_to_logfile callers log_text :
  always same_but_log (write_to_logfile logger_py callers log_text).
Proof. unfold write_to_logfile, now_date, now_time, strftime. always_steps. Qed.

#[local] Hint Resolve grown_write_to_logfile same_but_log_write_to_logfile
  : files.

Lemma grown_announce callers filename :
  always grown (announce logger_py callers filename).
Proof. unfold announce. always_steps. Qed.

Lemma same_but_log_announce callers filename :
  always same_but_log (announce logger_py callers filename).
Proof. unfold announce. always_steps. Qed.

#[local] Hint Resolve grown_announce : files.

Lemma grown_error_handler callers error line_num :
  always grown (error_handler logger_py callers error line_num).
Proof. unfold error_handler. always_steps. Qed.

Lemma same_but_log_error_handler callers error line_num :
  always same_but_log (error_handler logger_py callers error line_num).
Proof. unfold error_handler. always_steps. Qed.

(** X12.  The logger only appends: whatever the outcome of
    [write_to_logfile], [error_handler], [engage], [end_of_line] or
    [write_to_file], returning or raising, every file that was there is
    still there and begins with what it held. *)
Theorem logger_appends_only (callers : list FrameSummary)
    (log_text error filename : string) (line_num : nat)
    (entry : list string) :
  always grown (write_to_logfile logger_py callers log_text)
  ∧ always grown (error_handler logger_py callers error line_num)
  ∧ always grown (engage logger_py callers)
  ∧ always grown (end_of_line logger_py callers)
  ∧ always grown (write_to_file logger_py callers filename entry).
Proof.
  repeat split.
  - apply grown_write_to_logfile.
  - apply grown_error_handler.
  - unfold engage. always_steps.
  - unfold end_of_line. always_steps.
  - unfold write_to_file, writerow. always_steps.
Qed.

(** X13.  [write_to_logfile], [error_handler], [engage] and [end_of_line]
    touch no file but the log, whatever their outcome. *)
Theorem logger_touches_only_the_log (callers : list FrameSummary)
    (log_text error : string) (line_num : nat) :
  always same_but_log (write_to_logfile logger_py callers log_text)
  ∧ always same_but_log (error_handler logger_py callers error line_num)
  ∧ always same_but_log (engage logger_py callers)
  ∧ always same_but_log (end_of_line logger_py callers).
Proof.
  repeat split.
  - apply same_but_log_write_to_logfile.
  - apply same_but_log_error_handler.
  - unfold engage. always_steps.
  - unfold end_of_line. always_steps.
Qed.

End LoggerFiles.

(** ** The files and the dispatcher *)

Section MainFiles.

Variable fastly : fastly_module.
Variable main_py logger_py : string.
Variable repr_vars : Namespace → string.

Abbreviation main := (main fastly main_py logger_py repr_vars).
Abbreviation greeted := (greeted repr_vars).

Lemma report_and_raise_files {A} (callers : list FrameSummary)
    (lineno : nat) (error_message : string) (p : process) :
  same_but_log (os p)
    (os (@report_and_raise main_py logger_py A callers lineno
           error_message p).2)
  ∧ grown (os p)
      (os (@report_and_raise main_py logger_py A callers lineno
             error_message p).2).
Proof.
  unfold report_and_raise, bind, lift_result, in_os.
  destruct (line_number _) as [line_num|e]; simpl;
    [|split; [apply same_but_log_refl|apply grown_refl]].
  pose proof (same_but_log_error_handler logger_py
                (callers ++ [main_at main_py lineno
                   "error_handler(error=error_message, line_num=line_number())"])
                error_message line_num (os p)) as Hsame.
  pose proof (grown_error_handler logger_py
                (callers ++ [main_at main_py lineno
                   "error_handler(error=error_message, line_num=line_number())"])
                error_message line_num (os p)) as Hgrown.
  destruct (error_handler _ _ _ _ (os p)) as [[msg|e] w1]; simpl in *; done.
Qed.

(** X14.  Beside what the handler does, [main] writes to the log only, and
    only at its end: whatever the outcome, every file but the log is as the
    handler left it (as it was, for an operation that is not registered),
    and the log begins with what it held then. *)
Theorem main_writes_only_the_log (callers : list FrameSummary)
    (args : Namespace) (p : process) :
  match OPERATIONS fastly !! operation args with
  | Some operation_ =>
      let after :=
        (call operation_ (prepare_arguments (parameters operation_) args)
           (os (greeted args p))).2 in
      same_but_log after (os (main callers args p).2)
      ∧ grown after (os (main callers args p).2)
  | None =>
      same_but_log (os p) (os (main callers args p).2)
      ∧ grown (os p) (os (main callers args p).2)
  end.
Proof.
  rewrite main_greets.
  destruct (OPERATIONS fastly !! operation args) as [operation_|].
  - unfold try_except, bind, invoke. simpl.
    destruct (call operation_ _ _) as [[r|e] w1]; simpl.
    + destruct (truthy r); simpl;
        [split; [apply same_but_log_refl|apply grown_refl]|].
      pose proof (@report_and_raise_files unit callers 62
                    ("Operation, " +:+ operation args +:+ ", has failed.")
                    {| os := w1;
                       probe := probe p
                                ++ [(operation args,
                                     prepare_arguments
                                       (parameters operation_) args)] |})
        as Hfiles.
      destruct (report_and_raise _ _ _ _ _ _) as [[[]|e] p1]; simpl in *;
        [done|].
      by destruct (is_Exception e).
    + destruct (is_Exception e); simpl;
        split; (apply same_but_log_refl || apply grown_refl).
  - destruct (@report_and_raise_files unit callers 70
                ("Operation, '" +:+ operation args
                 +:+ "', does not exist or is unavailable.")
                (greeted args p)) as [Hsame Hgrown].
    split.
    + eapply same_but_log_trans; [|exact Hsame]. by apply same_but_log_fs.
    + eapply grown_trans; [|exact Hgrown]. by apply grown_fs.
Qed.

End MainFiles.

(** ** Script markers and new files *)

Section Markers.

Variable logger_py : string.



End Markers.

(** ** Rows, one call after the other *)

Section ManyRows.

Variable logger_py : string.

(** A call that returns: the world it leaves. *)
Lemma write_to_file_returned (callers : list FrameSummary)
    (filename : string) (entry : list string) (w w' : world) :
  write_to_file logger_py callers filename entry w = (Return tt, w') →
  ∃ w1, announce logger_py callers filename w = (Return tt, w1)
        ∧ w' = appended filename (written_record entry) w1.
Proof.
  intros Hrun.
  destruct (announce logger_py callers filename w) as [[[]|e] w1] eqn:Ha.
  - exists w1. split; [done|].
    destruct (open_error w1 filename) as [r|] eqn:Hopen.
    + by rewrite (write_to_file_refused logger_py callers filename entry r
                    w w1 Ha Hopen) in Hrun.
    + rewrite (write_to_file_after_announce logger_py callers filename entry
                 w w1 Ha Hopen) in Hrun.
      by injection Hrun as <-.
  - unfold write_to_file in Hrun. by erewrite bind_raise in Hrun.
Qed.

(** What a call that returns leaves in a data file that is not the
    log. *)
Lemma write_to_file_content (callers : list FrameSummary)
    (filename : string) (entry : list string) (w w' : world) :
  filename ≠ LOGFILE →
  write_to_file logger_py callers filename entry w = (Return tt, w') →
  fs w' !! filename
  = Some (default "" (fs w !! filename) +:+ written_record entry).
Proof.
  intros Hne (w1 & Ha & ->)%write_to_file_returned.
  pose proof (same_but_log_announce logger_py callers filename w) as Hsame.
  rewrite Ha in Hsame. simpl in Hsame.
  unfold appended. simpl. by rewrite lookup_insert_eq, Hsame.
Qed.

(** X17.  No row is lost and none is out of order: when the calls of
    [write_to_file] for the rows, one after the other, all return, the
    file (not the log) holds what it held followed by the record of each
    row, in order, a row that cannot be encoded being replaced by the
    placeholder; with one row or more the file exists. *)
Theorem write_rows_keeps_every_row (callers : list FrameSummary)
    (filename : string) (rows : list (list string)) (w w' : world) :
  filename ≠ LOGFILE →
  write_rows logger_py callers filename rows w = (Return tt, w') →
  default "" (fs w' !! filename)
  = default "" (fs w !! filename) +:+ records rows
  ∧ (rows ≠ [] → is_Some (fs w' !! filename)).
Proof.
  intros Hne Hrun.
  assert (default "" (fs w' !! filename)
          = default "" (fs w !! filename) +:+ records rows
          ∧ (is_Some (fs w !! filename) ∨ rows ≠ [] →
             is_Some (fs w' !! filename))) as [Hdata Hthere];
    [|by auto].
  revert w Hrun. induction rows as [|row rows IH]; intros w Hrun.
  - injection Hrun as <-. simpl. rewrite str_app_nil_r.
    split; [done|]. by intros [?|?].
  - unfold write_rows in Hrun. simpl in Hrun. unfold bind in Hrun.
    destruct (write_to_file logger_py callers filename row w)
      as [[[]|e] w1] eqn:Hrow; [|done].
    apply write_to_file_content in Hrow; [|done].
    destruct (IH w1 Hrun) as [Hdata Hthere].
    rewrite Hrow in Hdata, Hthere. simpl in *.
    rewrite str_app_assoc in Hdata. split; [done|].
    intros _. apply Hthere. by left.
Qed.

End ManyRows.

(** ** Old files *)

Section Removing.

Lemma endswith_stem (suffix s : string) :
  endswith suffix s = true ↔ ∃ stem, s = stem +:+ suffix.
Proof.
  induction s as [|c s IH].
  - destruct suffix as [|d suffix]; simpl.
    + split; [by exists ""|done].
    + split; [done|]. intros [stem Hs]. by destruct stem.
  - change (endswith suffix (String c s))
      with (String.eqb (String c s) suffix || endswith suffix s).
    rewrite orb_true_iff, String.eqb_eq, IH. split.
    + intros [<-|[stem ->]]; [by exists ""|by exists (String c stem)].
    + intros [[|d stem] Hs]; simpl in Hs.
      * by left.
      * injection Hs as _ ->. right. by exists stem.
Qed.

Lemma prefix_slash (name : string) :
  has_char "/" name = false → String.prefix "/" name = false.
Proof.
  destruct name as [|c name]; [done|].
  change (has_char "/" (String c name))
    with (Ascii.eqb c "/" || has_char "/" name).
  intros [Hc _]%orb_false_elim. apply Ascii.eqb_neq in Hc.
  change (String.prefix "/" (String c name))
    with (if ascii_dec "/" c then String.prefix "" name else false).
  by destruct (ascii_dec "/" c) as [<-|].
Qed.

(** The path [os.path.join] makes of a directory and a name without
    slash. *)
Lemma path_join_in_directory (directory name path : string) :
  has_char "/" name = false →
  in_directory directory name path ↔ path = path_join directory name.
Proof.
  intros Hname. unfold path_join, in_directory.
  rewrite prefix_slash by done.
  destruct (String.eqb directory "") eqn:Hempty; simpl.
  { apply String.eqb_eq in Hempty as ->. split.
    - intros [[_ ->]|[? _]]; done.
    - intros ->. left. split; [by left|done]. }
  apply String.eqb_neq in Hempty.
  destruct (endswith "/" directory) eqn:Hslash.
  - apply endswith_stem in Hslash as [d ->]. split.
    + intros [[_ ->]|(_ & Hno & _)]; [done|]. by destruct (Hno d).
    + intros ->. left. split; [right; by exists d|done].
  - split.
    + intros [[[->|[d ->]] _]|(_ & _ & ->)]; [done| |done].
      assert (endswith "/" (d +:+ "/") = true) as Hends
        by (apply endswith_stem; by exists d).
      by rewrite Hends in Hslash.
    + intros ->. right. split; [done|]. split; [|done].
      intros d ->.
      assert (endswith "/" (d +:+ "/") = true) as Hends
        by (apply endswith_stem; by exists d).
      by rewrite Hends in Hslash.
Qed.

Lemma remove_runs (path : string) (w : world) (r : result unit)
    (w' : world) :
  remove path w = (r, w') →
  (∃ old, unremovable w !! path = None ∧ fs w !! path = Some old
          ∧ r = Return tt ∧ w' = set_fs (delete path) w)
  ∨ (w' = w
     ∧ match unremovable w !! path with
       | Some refusal => r = Raise (refused refusal path)
       | None => fs w !! path = None ∧ r = Raise (FileNotFoundError path)
       end).
Proof.
  unfold remove.
  destruct (unremovable w !! path) as [refusal|];
    [intros [= <- <-]; by right|].
  destruct (fs w !! path) as [old|] eqn:Hold; intros [= <- <-].
  - left. by exists old.
  - by right.
Qed.

(** Removing one path after the other. *)
Lemma for_each_remove {A} (f : A → string) (l : list A) (w : world)
    (r : result unit) (w' : world) :
  for_each (λ x, remove (f x)) l w = (r, w') →
  (∀ path, fs w' !! path = fs w !! path
           ∨ (fs w' !! path = None ∧ ∃ x, x ∈ l ∧ path = f x))
  ∧ stdout w' = stdout w
  ∧ match r with
    | Return _ => ∀ x, x ∈ l → fs w' !! f x = None
    | Raise e =>
        ∃ x, x ∈ l
             ∧ match unremovable w !! f x with
               | Some refusal => e = refused refusal (f x)
               | None => e = FileNotFoundError (f x) ∧ fs w' !! f x = None
               end
    end.
Proof.
  revert w. induction l as [|x l IH]; intros w Hrun.
  - injection Hrun as <- <-. split; [by left|]. split; [done|].
    intros x Hx. by apply elem_of_nil in Hx.
  - simpl in Hrun. unfold bind in Hrun.
    destruct (remove (f x) w) as [r1 w1] eqn:Hrm.
    apply remove_runs in Hrm as [(old & Hfree & Hx & -> & ->)|[-> Hrm]].
    + destruct (IH _ Hrun) as (Hfs & Hout & Hres).
      simpl in *.
      split; [|split; [done|]].
      * intros path. destruct (Hfs path) as [Hsame|[Hnone (y & Hy & ->)]].
        -- destruct (decide (path = f x)) as [->|Hne].
           ++ right. split; [|exists x; split; [left|done]].
              by rewrite Hsame, lookup_delete_eq.
           ++ left. by rewrite Hsame, lookup_delete_ne.
        -- right. split; [done|]. exists y. split; [by right|done].
      * destruct r as [[]|e].
        -- intros y [->|Hy]%elem_of_cons; [|by apply Hres].
           destruct (Hfs (f x)) as [->|[-> _]]; [|done].
           by rewrite lookup_delete_eq.
        -- destruct Hres as (y & Hy & Hres).
           exists y. split; [by right|done].
    + assert (∃ e, r1 = Raise e
                   ∧ match unremovable w !! f x with
                     | Some refusal => e = refused refusal (f x)
                     | None =>
                         e = FileNotFoundError (f x) ∧ fs w !! f x = None
                     end) as (e & -> & He).
      { destruct (unremovable w !! f x); [by eexists|].
        destruct Hrm as [? ->]. by eexists. }
      injection Hrun as <- <-.
      split; [by left|]. split; [done|]. exists x. split; [left|done].
Qed.

(** X18.  [remove_old_files], for the names [os.listdir] gave, none with
    a slash in it: whatever the outcome, a path either holds what it held
    or is gone and is that of a listed name that ends with a dot and the
    extension, in the directory; nothing is printed.  When the call
    returns every such path is gone; when it raises, [os.remove] raised
    for such a path: what the refusal says for a path that is not to be
    removed (a directory, a missing right), [FileNotFoundError] for a
    path without a file. *)
Theorem remove_old_files_only_removes (listing : list string)
    (file_extension directory : string) (w : world) :
  Forall (λ name, has_char "/" name = false) listing →
  ∃ (r : result unit) (w' : world),
    remove_old_files listing file_extension directory w = (r, w')
    ∧ (∀ path,
         fs w' !! path = fs w !! path
         ∨ (fs w' !! path = None
            ∧ removable listing file_extension directory path))
    ∧ stdout w' = stdout w
    ∧ match r with
      | Return _ =>
          ∀ path, removable listing file_extension directory path →
            fs w' !! path = None
      | Raise e =>
          ∃ path, removable listing file_extension directory path
                  ∧ match unremovable w !! path with
                    | Some refusal => e = refused refusal path
                    | None =>
                        e = FileNotFoundError path ∧ fs w' !! path = None
                    end
      end.
Proof.
  intros Hnames.
  destruct (remove_old_files listing file_extension directory w)
    as [r w'] eqn:Hrun.
  exists r, w'. split; [done|].
  unfold remove_old_files in Hrun.
  apply (for_each_remove (path_join directory)) in Hrun
    as (Hfs & Hout & Hres).
  assert (∀ path,
            (∃ name, name ∈ List.filter
                              (endswith ("." +:+ file_extension)) listing
                     ∧ path = path_join directory name)
            ↔ removable listing file_extension directory path) as Hiff.
  { intros path. unfold removable, has_extension. split.
    - intros (name & Hin & ->). exists name.
      apply list_elem_of_In, filter_In in Hin as [Hin Hext].
      apply list_elem_of_In in Hin.
      split; [done|]. split; [by apply endswith_stem|].
      apply path_join_in_directory; [|done].
      by apply (proj1 (Forall_forall _ _) Hnames).
    - intros (name & Hin & Hext & Hpath). exists name. split.
      + apply list_elem_of_In, filter_In. split.
        * by apply list_elem_of_In.
        * by apply endswith_stem.
      + apply path_join_in_directory; [|done].
        by apply (proj1 (Forall_forall _ _) Hnames). }
  split; [|split; [done|]].
  - intros path. destruct (Hfs path) as [?|[? ?%Hiff]]; [by left|by right].
  - destruct r as [[]|e].
    + intros path (name & Hin & ->)%Hiff. by apply Hres.
    + destruct Hres as (name & Hin & Hres).
      exists (path_join directory name). split; [|done].
      apply Hiff. by exists name.
Qed.

End Removing.

(** ** The further properties at work *)

Lemma main_handler_raises_witness :
  main (fastly_of (raising OSError)) main_path logger_path no_repr
    [entry_frame] (request "backup_acl") (start_of (world_of ∅))
  = (Raise (ExceptionFrom OSError),
     called "backup_acl" {[ "api_key" := VStr "k3y" ]}
       (printed "Received arguments: {}" (world_of ∅))
       (start_of (world_of ∅))).
Proof.
  apply (main_handler_raises (fastly_of (raising OSError)) main_path
           logger_path no_repr [entry_frame] (request "backup_acl")
           (start_of (world_of ∅)) (raising OSError) OSError
           (printed "Received arguments: {}" (world_of ∅)));
    vm_compute; reflexivity.
Defined.

(** An interrupt is not caught by [except Exception]. *)
Example main_lets_an_interrupt_through :
  (main (fastly_of (raising (BaseExit "KeyboardInterrupt"))) main_path
     logger_path no_repr [entry_frame] (request "backup_acl")
     (start_of (world_of ∅))).1
  = Raise (BaseExit "KeyboardInterrupt").
Proof. vm_compute. reflexivity. Qed.

Lemma parse_key_value_pairs_of_pairs_witness :
  parse_key_value_pairs "a:1,b:2,a:3"
  = Return (list_to_map (reverse [("a", "1"); ("b", "2"); ("a", "3")])).
Proof.
  apply (parse_key_value_pairs_of_pairs
           [("a", "1"); ("b", "2"); ("a", "3")]).
  - discriminate.
  - repeat constructor.
Defined.

(** Of two pairs with the same key the later one counts. *)
Example parse_key_value_pairs_later_pair :
  parse_key_value_pairs "a:1,b:2,a:3" = Return {[ "a" := "3"; "b" := "2" ]}.
Proof. vm_compute. reflexivity. Qed.

Lemma strip_directories_name_witness :
  strip_directories "nightly.py" = Return "nightly.py"
  ∧ strip_directories ("/home/ops/jobs" +:+ "/" +:+ "nightly.py")
    = Return "nightly.py"
  ∧ strip_directories ("/home/ops/jobs" +:+ chr BACKSLASH +:+ "nightly.py")
    = Return "nightly.py".
Proof.
  apply (strip_directories_name "/home/ops/jobs" "nightly.py"). reflexivity.
Defined.



Lemma notice_with_line_feed_never_found_witness :
  contains (notice two_line_name)
    (".csv" +:+ chr DQUOTE +:+ " ")
  = false.
Proof.
  apply (notice_with_line_feed_never_found two_line_name
           (".csv" +:+ chr DQUOTE +:+ " ")
           (world_of {[ LOGFILE :=
                          String LF
                            (entry (world_of ∅) "logger.py" 85
                               (notice two_line_name)) ]}));
    vm_compute; reflexivity.
Defined.


(** A file in a directory that is missing: the notice is logged, [open]
    raises, and no record is written. *)
Example write_to_file_missing_directory :
  write_to_file logger_path [script_frame 20] "nodir/out.csv" ["1"; "a"]
    (world_closing one_line_log {[ "nodir/out.csv" := NoSuchDirectory ]})
  = (Raise (FileNotFoundError "nodir/out.csv"),
     logged (entry (world_of one_line_log) "logger.py" 85
               (notice "nodir/out.csv"))
       (tick 2
          (world_closing one_line_log
             {[ "nodir/out.csv" := NoSuchDirectory ]}))).
Proof. vm_compute. reflexivity. Qed.


(** The line [engage] leaves in the log. *)
Example engage_in_log :
  fs (engage logger_path [entry_frame; script_frame 3] (world_of ∅)).2
    !! LOGFILE
  = Some (chr LF +:+ "[03/09/2024 03:04:05 PM UTC, logger.py: 64] "
          +:+ "Starting Script: nightly.py ").
Proof. vm_compute. reflexivity. Qed.


Lemma write_rows_keeps_every_row_witness :
  let w := world_of one_line_log in
  let w' :=
    (write_rows logger_path [script_frame 20] "out.csv"
       [["1"; "a"]; ["2"; surrogate]; ["3"; "c,d"]] w).2 in
  default "" (fs w' !! "out.csv")
  = default "" (fs w !! "out.csv")
    +:+ records [["1"; "a"]; ["2"; surrogate]; ["3"; "c,d"]]
  ∧ ([["1"; "a"]; ["2"; surrogate]; ["3"; "c,d"]] ≠ [] →
     is_Some (fs w' !! "out.csv")).
Proof.
  intros w w'.
  apply (write_rows_keeps_every_row logger_path [script_frame 20] "out.csv"
           [["1"; "a"]; ["2"; surrogate]; ["3"; "c,d"]] w w');
    [discriminate|vm_compute; reflexivity].
Defined.

(** Three rows, the second of which cannot be encoded. *)
Example rows_in_file :
  fs (write_rows logger_path [script_frame 20] "out.csv"
        [["1"; "a"]; ["2"; surrogate]; ["3"; "c,d"]]
        (world_of one_line_log)).2 !! "out.csv"
  = Some ("1,a" +:+ CRLF +:+ "U,n,i,c,o,d,e,E,n,c,o,d,e,E,r,r,o,r" +:+ CRLF
          +:+ "3," +:+ chr DQUOTE +:+ "c,d" +:+ chr DQUOTE +:+ CRLF).
Proof. vm_compute. reflexivity. Qed.

Lemma remove_old_files_only_removes_witness :
  let w :=
    world_keeping {[ "out/a.csv" := "1"; "out/b.txt" := "2";
                     "out/c.csv" := "4" ]}
      {[ "out/z.csv" := IsADirectory ]} in
  ∃ (r : result unit) (w' : world),
    remove_old_files ["a.csv"; "b.txt"; "z.csv"; "c.csv"] "csv" "out" w
    = (r, w')
    ∧ (∀ path,
         fs w' !! path = fs w !! path
         ∨ (fs w' !! path = None
            ∧ removable ["a.csv"; "b.txt"; "z.csv"; "c.csv"] "csv" "out"
                path))
    ∧ stdout w' = stdout w
    ∧ match r with
      | Return _ =>
          ∀ path,
            removable ["a.csv"; "b.txt"; "z.csv"; "c.csv"] "csv" "out" path →
            fs w' !! path = None
      | Raise e =>
          ∃ path,
            removable ["a.csv"; "b.txt"; "z.csv"; "c.csv"] "csv" "out" path
            ∧ match unremovable w !! path with
              | Some refusal => e = refused refusal path
              | None => e = FileNotFoundError path ∧ fs w' !! path = None
              end
      end.
Proof.
  intros w.
  apply (remove_old_files_only_removes ["a.csv"; "b.txt"; "z.csv"; "c.csv"]
           "csv" "out" w).
  repeat constructor.
Defined.

(** A directory with the extension in its name stops the call: the file
    before it in the listing is gone, the one after it is still there. *)
Example remove_old_files_stops_at_a_directory :
  remove_old_files ["a.csv"; "b.txt"; "z.csv"; "c.csv"] "csv" "out"
    (world_keeping {[ "out/a.csv" := "1"; "out/b.txt" := "2";
                      "out/c.csv" := "4" ]}
       {[ "out/z.csv" := IsADirectory ]})
  = (Raise (IsADirectoryError "out/z.csv"),
     world_keeping {[ "out/b.txt" := "2"; "out/c.csv" := "4" ]}
       {[ "out/z.csv" := IsADirectory ]}).
Proof. vm_compute. reflexivity. Qed.

(** Only the files with the extension go, and a name that merely ends like
    the extension, without the dot, stays. *)
Example remove_old_files_by_extension :
  remove_old_files ["a.csv"; "b.txt"; "csv"; "c.csv"] "csv" "out"
    (world_of {[ "out/a.csv" := "1"; "out/b.txt" := "2"; "out/csv" := "3";
                 "out/c.csv" := "4"; "a.csv" := "5" ]})
  = (Return tt,
     world_of {[ "out/b.txt" := "2"; "out/csv" := "3"; "a.csv" := "5" ]}).
Proof. vm_compute. reflexivity. Qed.
